(** * OptiSigns help-center mirror: change detection and delta upload

    A shallow embedding of [scraper.py], [vector_store_manager.py] and
    [main.py], followed by the properties of the change-detection engine
    ([OptiSignsScraper.scrape_all]), of the catalog lister
    ([OptiSignsScraper.fetch_articles_list]) and of the delta uploader
    ([VectorStoreManager.upload_delta_files]).

    Conventions of the embedding.
    - A Python [str] is a [string]; every character stands for a code point
      below 256.
    - The network, the wall clock and the process environment are oracles
      ([Net], [OsEnv]).  The answer to a request may depend on the number of
      requests sent before it, so the same URL can answer differently on a
      later call.
    - Every HTTP call is recorded, in order, in the [requests] of the
      [World]; the local article files and the metadata file are the other
      two components of the [World].
    - [time.sleep] and the progress lines written with [print] have no
      effect on any value; of the printed lines only the per-article
      verdicts are kept ([outcomes]).
    - In [scrape_all] the store file, when it exists, was written by an
      earlier run: it decodes, and every record has its five fields; every
      descriptor of the catalog has an id and a title.  Writing a local
      file succeeds.
    - A function that lets an exception through returns an [Outcome].  The
      uploader raises on a register reply that is not an object.  [main]
      catches what [scrape_all] raises: the inputs that the previous
      convention keeps out of [scrape_all] reach [main] through
      [ScrapeFault] and [scrape_all_run].
    - The libraries used by the repository (BeautifulSoup, html2text,
      hashlib) are the fields of the class [Libs]. *)

From Stdlib Require Import String Ascii List ZArith Lia Bool.
From stdpp Require Import base gmap strings list.

(** ** Python string helpers *)

Definition nl : string := String (ascii_of_nat 10) EmptyString.

(** [str.isspace] on code points below 256: TAB..CR, FS..US, SPACE, NEL
    and NBSP. *)
Definition py_isspace (c : ascii) : bool :=
  let n := nat_of_ascii c in
  ((9 <=? n) && (n <=? 13)) || ((28 <=? n) && (n <=? 32))
  || (n =? 133) || (n =? 160).

Fixpoint lstrip_chars (l : list ascii) : list ascii :=
  match l with
  | [] => []
  | c :: l' => if py_isspace c then lstrip_chars l' else l
  end.

Definition rstrip_chars (l : list ascii) : list ascii :=
  reverse (lstrip_chars (reverse l)).

(** [s.strip()] *)
Definition py_strip (s : string) : string :=
  string_of_list_ascii (rstrip_chars (lstrip_chars (list_ascii_of_string s))).

(** [s.split('\n')] *)
Fixpoint py_split_nl (s : string) : list string :=
  match s with
  | EmptyString => [EmptyString]
  | String c s' =>
      if Ascii.eqb c (ascii_of_nat 10) then EmptyString :: py_split_nl s'
      else match py_split_nl s' with
           | [] => [String c EmptyString]
           | line :: lines => String c line :: lines
           end
  end.

(** [sep.join(l)] *)
Fixpoint py_join (sep : string) (l : list string) : string :=
  match l with
  | [] => EmptyString
  | [x] => x
  | x :: l' => x +:+ sep +:+ py_join sep l'
  end.

(** [l[:limit]] for an integer [limit]: a negative bound counts from the
    end of the list. *)
Definition py_slice_to {A} (l : list A) (limit : Z) : list A :=
  if (limit <? 0)%Z
  then take (Z.to_nat (Z.of_nat (length l) + limit)) l
  else take (Z.to_nat limit) l.

Definition startswith_slash (s : string) : bool :=
  match s with
  | String c _ => Ascii.eqb c "/"%char
  | EmptyString => false
  end.

Fixpoint endswith_slash (s : string) : bool :=
  match s with
  | EmptyString => false
  | String c EmptyString => Ascii.eqb c "/"%char
  | String _ s' => endswith_slash s'
  end.

(** [os.path.join(a, b)] (posixpath, two components) *)
Definition os_path_join (a b : string) : string :=
  if startswith_slash b then b
  else if String.eqb a EmptyString || endswith_slash a then a +:+ b
  else a +:+ "/" +:+ b.

(** [os.path.basename(p)]: what follows the last slash *)
Fixpoint os_path_basename (p : string) : string :=
  match p with
  | EmptyString => EmptyString
  | String c p' =>
      if existsb (Ascii.eqb "/"%char) (list_ascii_of_string p')
      then os_path_basename p'
      else if Ascii.eqb c "/"%char then p' else p
  end.

(** ** Python dictionaries

    A [dict] keeps its keys in insertion order, and [json.dump] writes them
    in that order: the metadata store is an association list. *)

Fixpoint dict_get {V} (k : string) (d : list (string * V)) : option V :=
  match d with
  | [] => None
  | (k', v) :: d' => if String.eqb k k' then Some v else dict_get k d'
  end.

(** [d[k] = v]: an existing key keeps its place, a new key goes last. *)
Fixpoint dict_set {V} (k : string) (v : V) (d : list (string * V))
  : list (string * V) :=
  match d with
  | [] => [(k, v)]
  | (k', v') :: d' =>
      if String.eqb k k' then (k', v) :: d' else (k', v') :: dict_set k v d'
  end.

Definition dict_keys {V} (d : list (string * V)) : list string := map fst d.

(** ** Data model *)

(** An entry of the catalog listing.  [ai_id] is [str(article_info['id'])],
    which is also how the id is rendered into the item URL. *)
Record ArticleInfo := {
  ai_id : string;
  ai_title : string
}.

(** The [article] object of the item endpoint, with the defaults of
    [article.get] applied ([body] and [html_url] default to the empty
    string, [title] to 'Untitled'). *)
Record Article := {
  body : string;
  html_url : string;
  title : string;
  updated_at : string
}.

(** The dictionary returned by [scrape_article]. *)
Record ArticleData := {
  ad_markdown : string;
  ad_hash : string;
  ad_url : string;
  ad_title : string;
  ad_updated_at : string;
  ad_scraped_at : string
}.

(** One record of [articles_metadata.json]. *)
Record FingerprintRecord := {
  fr_hash : string;
  fr_url : string;
  fr_title : string;
  fr_filename : string;
  fr_last_updated : string
}.

Definition Metadata := list (string * FingerprintRecord).

Record Stats := {
  added : nat;
  updated : nat;
  skipped : nat;
  failed : nat
}.

Inductive Classification := Added | Updated | Unchanged | Failed.

Global Instance Classification_eq_dec : EqDecision Classification.
Proof. solve_decision. Defined.

(** ** The outside world *)

Inductive PageResponse :=
| PageError
    (* status other than 200, or an exception of the request or of the
       JSON decoding *)
| PageOk (page_articles : list ArticleInfo) (next_page : bool)
    (* [data.get('articles', [])] and the truth value of
       [data.get('next_page')] *).

Inductive Request :=
| GetArticlesPage (page per_page : nat)
| GetArticle (article_id : string)
| PostFile (filename content : string)
| PostVectorStoreFile (vector_store_id file_id : option string)
| GetVectorStore (vector_store_id : option string).

Inductive Method := GET | POST | DELETE.

Definition http_method (r : Request) : Method :=
  match r with
  | GetArticlesPage _ _ | GetArticle _ | GetVectorStore _ => GET
  | PostFile _ _ | PostVectorStoreFile _ _ => POST
  end.

(** What [upload_file] returns when it does not return [None]: the decoded
    JSON of a reply with status 200, when it is truthy. *)
Inductive FileResponse :=
| FileObject (id : option string)
    (* a JSON object, with its [file_response.get('id')] *)
| FileNotObject
    (* a truthy JSON value that is not an object (an array, a string, a
       number): it has no [get], and [file_response.get('id')] raises an
       AttributeError *).

(** The first argument of every oracle is the number of requests sent so
    far.
    - [get_article] is [None] for a status other than 200, an exception, or
      a missing, null or empty [article] object;
    - [post_file] is [None] for a status other than 200, an exception or a
      falsy JSON value (an empty object among them), and the truthy JSON
      value otherwise;
    - [post_vector_store_file] is the truth value of the answer of
      [add_file_to_vector_store]. *)
Record Net := {
  get_articles_page : nat -> nat -> nat -> PageResponse;
  get_article : nat -> string -> option Article;
  post_file : nat -> string -> string -> option FileResponse;
  post_vector_store_file : nat -> option string -> option string -> bool;
  datetime_now_isoformat : nat -> string
}.

Record OsEnv := {
  OPENAI_API_KEY : option string;
  VECTOR_STORE_ID : option string;
  ASSISTANT_ID : option string
}.

(** [metadata_file] is the metadata file by the JSON value it holds
    ([None]: the file does not exist); the text that [save_metadata] writes
    is [json_dumps] below. *)
Record World := {
  requests : list Request;
  files : gmap string string;
  metadata_file : option Metadata
}.

Definition tick (w : World) : nat := length (requests w).

(** A call returns a value or raises an exception that it does not catch;
    [Raises] keeps the world at the moment of the exception. *)
Inductive Outcome (A : Type) :=
| Returns (a : A)
| Raises (w : World).

Arguments Returns {A} a.
Arguments Raises {A} w.

Definition send (r : Request) (w : World) : World :=
  {| requests := requests w ++ [r];
     files := files w;
     metadata_file := metadata_file w |}.

Definition write_file (path content : string) (w : World) : World :=
  {| requests := requests w;
     files := <[path := content]> (files w);
     metadata_file := metadata_file w |}.

(** ** Libraries *)

Class Libs := {
  (* BeautifulSoup(html, 'html.parser'), the script, style, meta and link
     tags decomposed, then str(soup) *)
  bs4_decompose : string -> string;
  (* html2text.HTML2Text.handle *)
  h2t_handle : string -> string;
  (* hashlib.md5(s.encode('utf-8')).hexdigest() *)
  md5_hexdigest : string -> string
}.

(** ** scraper.py *)

Section Scraper.
Context `{Libs}.

Definition scraper_articles_dir : string := "articles".

(** [get_article_hash] *)
Definition get_article_hash (content : string) : string :=
  md5_hexdigest content.

Definition article_url_header (article_url : string) : string :=
  "Article URL: " +:+ article_url +:+ nl +:+ nl.

(** The body of the loop of [clean_html_to_markdown] over the lines, on the
    pair [(lines, prev_empty)]. *)
Definition collapse_step (st : list string * bool) (line : string)
  : list string * bool :=
  let '(lines, prev_empty) := st in
  let is_empty := String.eqb (py_strip line) EmptyString in
  if is_empty
  then ((if prev_empty then lines else lines ++ [line]), true)
  else (lines ++ [line], false).

Definition clean_html_to_markdown (html_content article_url : string)
  : string :=
  if String.eqb html_content EmptyString then EmptyString
  else
    let soup := bs4_decompose html_content in
    let markdown := h2t_handle soup in
    let lines := fst (fold_left collapse_step (py_split_nl markdown) ([], false)) in
    let markdown := py_strip (py_join nl lines) in
    article_url_header article_url +:+ markdown.

(** [fetch_article_content] *)
Definition fetch_article_content (N : Net) (article_id : string) (w : World)
  : option Article * World :=
  (get_article N (tick w) article_id, send (GetArticle article_id) w).

(** [scrape_article] *)
Definition scrape_article (N : Net) (article_info : ArticleInfo) (w : World)
  : option ArticleData * World :=
  let article_id := ai_id article_info in
  let '(article, w1) := fetch_article_content N article_id w in
  match article with
  | None => (None, w1)
  | Some article =>
      let html_body := body article in
      let article_url := html_url article in
      let markdown := clean_html_to_markdown html_body article_url in
      if String.eqb markdown EmptyString
         || String.eqb markdown (article_url_header article_url)
      then (None, w1)
      else (Some {| ad_markdown := markdown;
                    ad_hash := get_article_hash markdown;
                    ad_url := article_url;
                    ad_title := title article;
                    ad_updated_at := updated_at article;
                    ad_scraped_at := datetime_now_isoformat N (tick w1) |},
            w1)
  end.

(** [save_article] *)
Definition save_article (article_data : ArticleData) (filename : string)
  (w : World) : World :=
  write_file (os_path_join scraper_articles_dir filename)
             (ad_markdown article_data) w.

(** [load_metadata] *)
Definition load_metadata (w : World) : Metadata :=
  match metadata_file w with
  | Some metadata => metadata
  | None => []
  end.

(** [save_metadata] *)
Definition save_metadata (metadata : Metadata) (w : World) : World :=
  {| requests := requests w;
     files := files w;
     metadata_file := Some metadata |}.

(** [fetch_articles_list]: the [while True] loop, one page request per
    unit of fuel.  [None] means that the fuel ran out before the loop
    stopped. *)
Fixpoint fetch_articles_loop (fuel : nat) (N : Net) (per_page page : nat)
  (articles : list ArticleInfo) (w : World)
  : option (list ArticleInfo * World) :=
  match fuel with
  | O => None
  | S fuel' =>
      let w1 := send (GetArticlesPage page per_page) w in
      match get_articles_page N (tick w) page per_page with
      | PageError => Some (articles, w1)
      | PageOk [] _ => Some (articles, w1)
      | PageOk page_articles next_page =>
          let articles := articles ++ page_articles in
          if next_page
          then fetch_articles_loop fuel' N per_page (S page) articles w1
          else Some (articles, w1)
      end
  end.

Definition fetch_articles_list (fuel : nat) (N : Net) (w : World)
  : option (list ArticleInfo * World) :=
  fetch_articles_loop fuel N 100 1 [] w.

(** The local variables of [scrape_all] that the loop updates; [outcomes]
    is the verdict printed for each descriptor, in order. *)
Record RunState := {
  stats : Stats;
  new_articles : list string;
  metadata : Metadata;
  outcomes : list (string * Classification)
}.

Definition zero_stats : Stats :=
  {| added := 0; updated := 0; skipped := 0; failed := 0 |}.

Definition init_run (m : Metadata) : RunState :=
  {| stats := zero_stats; new_articles := []; metadata := m; outcomes := [] |}.

(** The body of the [for] loop of [scrape_all]. *)
Definition scrape_step (N : Net) (s : RunState * World)
  (article_info : ArticleInfo) : RunState * World :=
  let '(st, w) := s in
  let article_id := ai_id article_info in
  let '(article_data, w1) := scrape_article N article_info w in
  match article_data with
  | None =>
      ({| stats := {| added := added (stats st);
                      updated := updated (stats st);
                      skipped := skipped (stats st);
                      failed := failed (stats st) + 1 |};
          new_articles := new_articles st;
          metadata := metadata st;
          outcomes := outcomes st ++ [(article_id, Failed)] |}, w1)
  | Some article_data =>
      let filename := article_id +:+ ".md" in
      match dict_get article_id (metadata st) with
      | Some record =>
          if negb (String.eqb (fr_hash record) (ad_hash article_data))
          then
            let w2 := save_article article_data filename w1 in
            let record' :=
              {| fr_hash := ad_hash article_data;
                 fr_url := fr_url record;
                 fr_title := fr_title record;
                 fr_filename := fr_filename record;
                 fr_last_updated := ad_scraped_at article_data |} in
            ({| stats := {| added := added (stats st);
                            updated := updated (stats st) + 1;
                            skipped := skipped (stats st);
                            failed := failed (stats st) |};
                new_articles := new_articles st ++ [filename];
                metadata := dict_set article_id record' (metadata st);
                outcomes := outcomes st ++ [(article_id, Updated)] |}, w2)
          else
            ({| stats := {| added := added (stats st);
                            updated := updated (stats st);
                            skipped := skipped (stats st) + 1;
                            failed := failed (stats st) |};
                new_articles := new_articles st;
                metadata := metadata st;
                outcomes := outcomes st ++ [(article_id, Unchanged)] |}, w1)
      | None =>
          let w2 := save_article article_data filename w1 in
          let record :=
            {| fr_hash := ad_hash article_data;
               fr_url := ad_url article_data;
               fr_title := ad_title article_data;
               fr_filename := filename;
               fr_last_updated := ad_scraped_at article_data |} in
          ({| stats := {| added := added (stats st) + 1;
                          updated := updated (stats st);
                          skipped := skipped (stats st);
                          failed := failed (stats st) |};
              new_articles := new_articles st ++ [filename];
              metadata := dict_set article_id record (metadata st);
              outcomes := outcomes st ++ [(article_id, Added)] |}, w2)
      end
  end.

Definition scrape_loop (N : Net) (articles_to_scrape : list ArticleInfo)
  (s : RunState * World) : RunState * World :=
  fold_left (scrape_step N) articles_to_scrape s.

(** What [scrape_all] returns: [(stats, new_articles)], with the printed
    verdicts. *)
Record ScrapeResult := {
  r_stats : Stats;
  r_new_articles : list string;
  r_outcomes : list (string * Classification)
}.

(** [scrape_all] *)
Definition scrape_all (fuel : nat) (limit : Z) (N : Net) (w : World)
  : option (ScrapeResult * World) :=
  match fetch_articles_list fuel N w with
  | None => None
  | Some ([], w1) =>
      Some ({| r_stats := zero_stats; r_new_articles := []; r_outcomes := [] |},
            w1)
  | Some (all_articles, w1) =>
      let articles_to_scrape := py_slice_to all_articles limit in
      let metadata0 := load_metadata w1 in
      let '(st, w2) := scrape_loop N articles_to_scrape (init_run metadata0, w1) in
      let w3 := save_metadata (metadata st) w2 in
      Some ({| r_stats := stats st;
               r_new_articles := new_articles st;
               r_outcomes := outcomes st |}, w3)
  end.

End Scraper.

(** ** The text written by [save_metadata]

    [json.dump(metadata, f, indent=2, ensure_ascii=False)] *)

Definition dquote : string := String (ascii_of_nat 34) EmptyString.
Definition backslash : string := String (ascii_of_nat 92) EmptyString.

Definition hex_digit (n : nat) : string :=
  match n with
  | 0 => "0" | 1 => "1" | 2 => "2" | 3 => "3" | 4 => "4" | 5 => "5"
  | 6 => "6" | 7 => "7" | 8 => "8" | 9 => "9" | 10 => "a" | 11 => "b"
  | 12 => "c" | 13 => "d" | 14 => "e" | _ => "f"
  end.

(** One character of a JSON string: the quote, the backslash and the
    control characters are escaped, every other character is written as it
    is. *)
Definition json_escape_char (c : ascii) : string :=
  let n := nat_of_ascii c in
  if n =? 34 then backslash +:+ dquote
  else if n =? 92 then backslash +:+ backslash
  else if n =? 10 then backslash +:+ "n"
  else if n =? 13 then backslash +:+ "r"
  else if n =? 9 then backslash +:+ "t"
  else if n =? 8 then backslash +:+ "b"
  else if n =? 12 then backslash +:+ "f"
  else if n <? 32
       then backslash +:+ "u00" +:+ hex_digit (n / 16) +:+ hex_digit (n mod 16)
  else String c EmptyString.

Fixpoint json_escape (s : string) : string :=
  match s with
  | EmptyString => EmptyString
  | String c s' => json_escape_char c +:+ json_escape s'
  end.

Definition json_string (s : string) : string :=
  dquote +:+ json_escape s +:+ dquote.

(** A dictionary with at least one item at nesting depth [level]: the items
    are separated by a comma and a new line indented by two more spaces than
    the closing brace.  An empty dictionary is written without a line
    break. *)
Fixpoint indent_spaces (level : nat) : string :=
  match level with
  | O => EmptyString
  | S l => "  " +:+ indent_spaces l
  end.

Definition json_object (level : nat) (items : list (string * string))
  : string :=
  match items with
  | [] => "{}"
  | _ =>
      let newline_indent := nl +:+ indent_spaces (S level) in
      "{" +:+ newline_indent
      +:+ py_join ("," +:+ newline_indent)
            (map (fun kv => json_string (fst kv) +:+ ": " +:+ snd kv) items)
      +:+ nl +:+ indent_spaces level +:+ "}"
  end.

Definition json_record (level : nat) (r : FingerprintRecord) : string :=
  json_object level
    [("hash", json_string (fr_hash r));
     ("url", json_string (fr_url r));
     ("title", json_string (fr_title r));
     ("filename", json_string (fr_filename r));
     ("last_updated", json_string (fr_last_updated r))].

Definition json_dumps (m : Metadata) : string :=
  json_object 0 (map (fun kv => (fst kv, json_record 1 (snd kv))) m).

(** ** vector_store_manager.py *)

Record VectorStoreManager := {
  api_key : string;
  vector_store_id : option string;
  assistant_id : option string
}.

(** [VectorStoreManager.__init__]: [None] is the [ValueError] raised when
    the key is missing or empty. *)
Definition VectorStoreManager_init (env : OsEnv) : option VectorStoreManager :=
  match OPENAI_API_KEY env with
  | None => None
  | Some key =>
      if String.eqb key EmptyString then None
      else Some {| api_key := key;
                   vector_store_id := VECTOR_STORE_ID env;
                   assistant_id := ASSISTANT_ID env |}
  end.

(** [upload_file]: a file that cannot be opened raises inside the [try],
    before any request is sent. *)
Definition upload_file (N : Net) (file_path : string) (w : World)
  : option FileResponse * World :=
  match files w !! file_path with
  | None => (None, w)
  | Some content =>
      let filename := os_path_basename file_path in
      (post_file N (tick w) filename content, send (PostFile filename content) w)
  end.

(** [add_file_to_vector_store] *)
Definition add_file_to_vector_store (N : Net) (self : VectorStoreManager)
  (file_id : option string) (w : World) : bool * World :=
  (post_vector_store_file N (tick w) (vector_store_id self) file_id,
   send (PostVectorStoreFile (vector_store_id self) file_id) w).

Record UploadResult := {
  uploaded : nat;
  upload_failed : nat;
  total : nat
}.

(** The body of the [for] loop of [upload_delta_files], on
    [(uploaded_count, failed_count)].  [file_response.get('id')] is
    evaluated outside any [try]: on a reply that is not an object the
    exception leaves the loop and the function. *)
Definition upload_step (N : Net) (self : VectorStoreManager)
  (s : nat * nat * World) (file_path : string)
  : Outcome (nat * nat * World) :=
  let '(uploaded_count, failed_count, w) := s in
  let '(file_response, w1) := upload_file N file_path w in
  match file_response with
  | None => Returns (uploaded_count, failed_count + 1, w1)
  | Some FileNotObject => Raises w1
  | Some (FileObject file_id) =>
      let '(vs_response, w2) := add_file_to_vector_store N self file_id w1 in
      if vs_response
      then Returns (uploaded_count + 1, failed_count, w2)
      else Returns (uploaded_count, failed_count + 1, w2)
  end.

Fixpoint upload_loop (N : Net) (self : VectorStoreManager)
  (file_paths : list string) (s : nat * nat * World)
  : Outcome (nat * nat * World) :=
  match file_paths with
  | [] => Returns s
  | file_path :: rest =>
      match upload_step N self s file_path with
      | Returns s' => upload_loop N self rest s'
      | Raises w => Raises w
      end
  end.

(** [upload_delta_files] *)
Definition upload_delta_files (N : Net) (self : VectorStoreManager)
  (new_filenames : list string) (articles_dir : string) (w : World)
  : Outcome (UploadResult * World) :=
  match new_filenames with
  | [] => Returns ({| uploaded := 0; upload_failed := 0; total := 0 |}, w)
  | _ =>
      let file_paths := map (os_path_join articles_dir) new_filenames in
      match upload_loop N self file_paths (0, 0, w) with
      | Returns (uploaded_count, failed_count, w') =>
          Returns ({| uploaded := uploaded_count;
                      upload_failed := failed_count;
                      total := length file_paths |}, w')
      | Raises w' => Raises w'
      end
  end.

(** [get_vector_store_info]: one GET; its answer is printed and returned,
    and no caller in these files uses what is returned. *)
Definition get_vector_store_info (self : VectorStoreManager) (w : World)
  : World :=
  send (GetVectorStore (vector_store_id self)) w.

(** ** main.py *)

(** Inputs on which [scrape_all] raises.  The types of the embedding keep
    them out of [scrape_all] above, which is the run without such an input;
    [main] catches the exception whatever it is, so they are given here.
    - [StoreUndecodable]: the store file, when there is one, holds a text
      on which [json.load] raises in [load_metadata].
    - [BadDescriptor k fetched]: processing the descriptor of index [k]
      raises before anything is written for it: with [fetched = false] at
      the top of the loop body (no ['id'], or a title that cannot be
      sliced), with [fetched = true] after its article request (an article
      value that is not an object, or a stored record without hash). *)
Inductive ScrapeFault :=
| NoFault
| StoreUndecodable
| BadDescriptor (k : nat) (fetched : bool).

(** [scrape_all] with the exceptions that it lets through.  An empty
    catalog returns before the store is read, and a descriptor that the
    limit cuts off is never looked at. *)
Definition scrape_all_run `{Libs} (fault : ScrapeFault) (fuel : nat)
  (limit : Z) (N : Net) (w : World)
  : option (Outcome (ScrapeResult * World)) :=
  match fetch_articles_list fuel N w with
  | None => None
  | Some ([], _) => option_map Returns (scrape_all fuel limit N w)
  | Some (all_articles, w1) =>
      let articles_to_scrape := py_slice_to all_articles limit in
      match fault with
      | NoFault => option_map Returns (scrape_all fuel limit N w)
      | StoreUndecodable =>
          match metadata_file w1 with
          | None => option_map Returns (scrape_all fuel limit N w)
          | Some _ => Some (Raises w1)
          end
      | BadDescriptor k fetched =>
          match articles_to_scrape !! k with
          | None => option_map Returns (scrape_all fuel limit N w)
          | Some article_info =>
              let '(_, w2) :=
                scrape_loop N (take k articles_to_scrape)
                  (init_run (load_metadata w1), w1) in
              Some (Raises
                      (if fetched
                       then send (GetArticle (ai_id article_info)) w2
                       else w2))
          end
      end
  end.

(** [main]: the exit code and the world it leaves.  An exception of the
    scrape is caught and the run goes on with an empty list.  The manager
    is built only when the list is not empty; its [ValueError], like any
    exception of [upload_delta_files], is caught by the [except] around the
    upload, which returns 1. *)
Definition main `{Libs} (fault : ScrapeFault) (fuel : nat) (N : Net)
  (env : OsEnv) (w : World) : option (Z * World) :=
  match scrape_all_run fault fuel 50 N w with
  | None => None
  | Some scraped =>
      let '(new_articles, w1) :=
        match scraped with
        | Returns (r, w1) => (r_new_articles r, w1)
        | Raises w1 => ([], w1)
        end in
      match new_articles with
      | [] => Some (0%Z, w1)
      | _ =>
          match VectorStoreManager_init env with
          | None => Some (1%Z, w1)
          | Some manager =>
              match upload_delta_files N manager new_articles "articles" w1
              with
              | Returns (_, w2) => Some (0%Z, w2)
              | Raises w2 => Some (1%Z, w2)
              end
          end
      end
  end.

(** ** Example data

    Stand-ins for the libraries on text without markup: such text has no tag
    to remove, html2text ends it with a blank line, and the digest is
    replaced by the text itself. *)

Definition example_libs : Libs :=
  {| bs4_decompose := fun s => s;
     h2t_handle := fun s => s +:+ nl +:+ nl;
     md5_hexdigest := fun s => s |}.

Definition empty_world : World :=
  {| requests := []; files := ∅; metadata_file := None |}.

Definition article_A : ArticleInfo := {| ai_id := "1"; ai_title := "A" |}.
Definition article_B : ArticleInfo := {| ai_id := "2"; ai_title := "B" |}.

Definition content_of (text : string) : Article :=
  {| body := text; html_url := "https://support.optisigns.com/a";
     title := "T"; updated_at := "2024-01-01T00:00:00Z" |}.

(** A catalog of one page; every article reads "foo". *)
Definition net_catalog (catalog : list ArticleInfo) : Net :=
  {| get_articles_page := fun _ page _ =>
       if page =? 1 then PageOk catalog false else PageError;
     get_article := fun _ _ => Some (content_of "foo");
     post_file := fun _ name _ => Some (FileObject (Some ("file-" +:+ name)));
     post_vector_store_file := fun _ _ _ => true;
     datetime_now_isoformat := fun _ => "2024-01-02T03:04:05" |}.

(** An environment without the bearer token. *)
Definition env_no_key : OsEnv :=
  {| OPENAI_API_KEY := None; VECTOR_STORE_ID := Some "vs_1"; ASSISTANT_ID := None |}.

Definition example_manager : VectorStoreManager :=
  {| api_key := "sk-test"; vector_store_id := Some "vs_1"; assistant_id := None |}.


Definition world_two_files : World :=
  {| requests := [];
     files := <["articles/1.md" := "one"]> (<["articles/2.md" := "two"]> ∅);
     metadata_file := None |}.

(** Three catalog pages of one article each, the last one without a next
    page. *)
Definition net_three_pages : Net :=
  {| get_articles_page := fun _ page _ =>
       match page with
       | 1 => PageOk [article_A] true
       | 2 => PageOk [article_B] true
       | 3 => PageOk [{| ai_id := "3"; ai_title := "C" |}] false
       | _ => PageError
       end;
     get_article := fun _ _ => Some (content_of "foo");
     post_file := fun _ _ _ => None;
     post_vector_store_file := fun _ _ _ => false;
     datetime_now_isoformat := fun _ => "2024-01-02T03:04:05" |}.

(** The content of every article is [text]; the item endpoint fails when
    [text] is empty. *)
Definition net_content (catalog : list ArticleInfo) (text : string) : Net :=
  {| get_articles_page := fun _ page _ =>
       if page =? 1 then PageOk catalog false else PageError;
     get_article := fun _ _ =>
       if String.eqb text EmptyString then None else Some (content_of text);
     post_file := fun _ name _ => Some (FileObject (Some ("file-" +:+ name)));
     post_vector_store_file := fun _ _ _ => true;
     datetime_now_isoformat := fun _ => "2024-01-02T03:04:05" |}.

Definition foo_markdown : string :=
  @clean_html_to_markdown example_libs "foo" "https://support.optisigns.com/a".

(** A store that knows article 1 with the fingerprint [hash]. *)
Definition store_A (hash : string) : Metadata :=
  [("1", {| fr_hash := hash;
            fr_url := "https://support.optisigns.com/a";
            fr_title := "T";
            fr_filename := "1.md";
            fr_last_updated := "2024-01-01T00:00:00" |})].

(** ** Vocabulary of the statements *)

(** The verdicts that put a file name in the list returned by
    [scrape_all]. *)
Definition is_delta (c : Classification) : bool :=
  match c with
  | Added | Updated => true
  | Unchanged | Failed => false
  end.

Definition filename_of (article_id : string) : string := article_id +:+ ".md".

Definition count_outcomes (c : Classification)
  (os : list (string * Classification)) : nat :=
  length (List.filter (fun o => bool_decide (snd o = c)) os).

(** The list returned by [scrape_all] and its counters, read off the
    verdicts. *)
Definition delta_invariant (st : RunState) : Prop :=
  new_articles st
  = map (fun o => filename_of (fst o))
        (List.filter (fun o => is_delta (snd o)) (outcomes st))
  /\ added (stats st) = count_outcomes Added (outcomes st)
  /\ updated (stats st) = count_outcomes Updated (outcomes st)
  /\ skipped (stats st) = count_outcomes Unchanged (outcomes st)
  /\ failed (stats st) = count_outcomes Failed (outcomes st).

(** Markdown that [scrape_article] accepts whatever the url of the
    article. *)
Definition usable_markdown (md : string) : Prop :=
  md <> EmptyString /\ forall url, md <> article_url_header url.

Definition article_path (article_id : string) : string :=
  os_path_join scraper_articles_dir (filename_of article_id).

(** After a verdict Added or Updated for an id, the cached file of the id
    holds markdown that [scrape_article] accepted and the store holds the
    fingerprint of that markdown. *)
Definition cached_invariant `{Libs} (s : RunState * World) : Prop :=
  forall id c, In (id, c) (outcomes (fst s)) -> c = Added \/ c = Updated ->
    exists md record,
      files (snd s) !! article_path id = Some md
      /\ dict_get id (metadata (fst s)) = Some record
      /\ fr_hash record = get_article_hash md
      /\ usable_markdown md.

(** The record of [id] is [record], every verdict on [id] is Unchanged and
    its file name is not in the list of new file names. *)
Definition unchanged_invariant (id : string) (record : FingerprintRecord)
  (s : RunState * World) : Prop :=
  dict_get id (metadata (fst s)) = Some record
  /\ (forall c, In (id, c) (outcomes (fst s)) -> c = Unchanged)
  /\ ~ In (filename_of id) (new_articles (fst s)).

(** The answer to the request for page [page] when the listing starts in
    world [w]: the loop asks for page 1 first and sends nothing else in
    between. *)
Definition served (N : Net) (w : World) (page : nat) : PageResponse :=
  get_articles_page N (tick w + (page - 1)) page 100.

(** The answers that end the listing. *)
Definition stops (r : PageResponse) : bool :=
  match r with
  | PageError => true
  | PageOk [] _ => true
  | PageOk _ next_page => negb next_page
  end.

Definition page_items (r : PageResponse) : list ArticleInfo :=
  match r with
  | PageError => []
  | PageOk page_articles _ => page_articles
  end.

(** The world after the requests [rs], sent in this order. *)
Definition send_all (rs : list Request) (w : World) : World :=
  {| requests := requests w ++ rs;
     files := files w;
     metadata_file := metadata_file w |}.

Definition last_char (s : string) : option ascii :=
  last (list_ascii_of_string s).

(** The requests of the scraper and those of the uploader. *)
Definition is_scrape_request (r : Request) : bool :=
  match r with
  | GetArticlesPage _ _ | GetArticle _ => true
  | PostFile _ _ | PostVectorStoreFile _ _ | GetVectorStore _ => false
  end.

(** The world that a call leaves, whether it returns or raises. *)
Definition outcome_world {A} (world_of : A -> World) (o : Outcome A)
  : World :=
  match o with
  | Returns a => world_of a
  | Raises w => w
  end.

(** No register call answers with a value that is not an object. *)
Definition registers_objects (N : Net) : Prop :=
  forall t name content, post_file N t name content <> Some FileNotObject.

(** The register call answers every file with an array. *)
Definition net_register_array : Net :=
  {| get_articles_page := fun _ page _ =>
       if page =? 1 then PageOk [{| ai_id := "1"; ai_title := "A" |}] false
       else PageError;
     get_article := fun _ _ =>
       Some {| body := "foo"; html_url := "https://support.optisigns.com/a";
               title := "T"; updated_at := "2024-01-01T00:00:00Z" |};
     post_file := fun _ _ _ => Some FileNotObject;
     post_vector_store_file := fun _ _ _ => true;
     datetime_now_isoformat := fun _ => "2024-01-02T03:04:05" |}.

(** ** The metadata file on disk during a run *)

Fixpoint string_take (n : nat) (s : string) : string :=
  match n, s with
  | S n', String c s' => String c (string_take n' s')
  | _, _ => EmptyString
  end.

Fixpoint string_drop (n : nat) (s : string) : string :=
  match n, s with
  | S n', String _ s' => string_drop n' s'
  | _, _ => s
  end.

(** The flushes of a write of [rest] after [written]: [sizes] are the
    numbers of characters of the successive flushes, and closing the file
    writes what remains. *)
Fixpoint flush_schedule (written rest : string) (sizes : list nat)
  : list string :=
  match sizes with
  | [] => [written +:+ rest]
  | n :: sizes' =>
      (written +:+ string_take n rest)
        :: flush_schedule (written +:+ string_take n rest)
             (string_drop n rest) sizes'
  end.

(** [save_metadata] seen from the disk: [open(..., 'w')] leaves an empty
    file, then the text of [json.dump] arrives flush by flush. *)
Definition save_metadata_on_disk (m : Metadata) (sizes : list nat)
  : list (option string) :=
  Some EmptyString :: map Some (flush_schedule EmptyString (json_dumps m) sizes).

(** The successive contents of the metadata file over a run of
    [scrape_all] ([None]: no file).  Nothing touches the file before the
    call of [save_metadata] that ends the run, and a run that finds no
    article returns before it. *)
Definition scrape_all_on_disk `{Libs} (fuel : nat) (limit : Z) (N : Net)
  (w : World) (sizes : list nat) : option (list (option string)) :=
  let old := option_map json_dumps (metadata_file w) in
  match fetch_articles_list fuel N w with
  | None => None
  | Some ([], _) => Some [old]
  | Some (all_articles, w1) =>
      let articles_to_scrape := py_slice_to all_articles limit in
      let '(st, _) :=
        scrape_loop N articles_to_scrape (init_run (load_metadata w1), w1) in
      Some (old :: save_metadata_on_disk (metadata st) sizes)
  end.

Definition world_with_store (m : Metadata) : World :=
  {| requests := []; files := ∅; metadata_file := Some m |}.

(** ** The rest of vector_store_manager.py *)

(** [s.endswith(suffix)] *)
Definition py_endswith (s suffix : string) : bool :=
  let n := String.length s in
  let k := String.length suffix in
  (k <=? n) && String.eqb (string_drop (n - k) s) suffix.

(** The names of a directory listing that [upload_all_articles] keeps. *)
Definition markdown_names (names : list string) : list string :=
  List.filter (fun filename => py_endswith filename ".md") names.

(** The [for] loop of [upload_all_articles], lines 95 to 119. *)
Fixpoint upload_all_loop (N : Net) (self : VectorStoreManager)
  (file_paths : list string) (uploaded_count failed_count : nat) (w : World)
  : Outcome (nat * nat * World) :=
  match file_paths with
  | [] => Returns (uploaded_count, failed_count, w)
  | file_path :: rest =>
      let '(file_response, w1) := upload_file N file_path w in
      match file_response with
      | None => upload_all_loop N self rest uploaded_count (failed_count + 1) w1
      | Some FileNotObject => Raises w1
      | Some (FileObject file_id) =>
          let '(vs_response, w2) :=
            add_file_to_vector_store N self file_id w1 in
          if vs_response
          then upload_all_loop N self rest (uploaded_count + 1) failed_count w2
          else upload_all_loop N self rest uploaded_count (failed_count + 1) w2
      end
  end.

(** [upload_all_articles].  [listing] is the answer of the operating
    system for the directory: [None] when [os.path.exists] is false,
    otherwise the names of [os.listdir], in the order in which the system
    gives them. *)
Definition upload_all_articles (N : Net) (self : VectorStoreManager)
  (listing : option (list string)) (articles_dir : string) (w : World)
  : Outcome (option UploadResult * World) :=
  match listing with
  | None => Returns (None, w)
  | Some names =>
      let file_paths :=
        map (os_path_join articles_dir) (markdown_names names) in
      match file_paths with
      | [] => Returns (None, w)
      | _ =>
          match upload_all_loop N self file_paths 0 0 w with
          | Raises w' => Raises w'
          | Returns (uploaded_count, failed_count, w') =>
              let w'' :=
                if 0 <? uploaded_count then get_vector_store_info self w'
                else w' in
              Returns (Some {| uploaded := uploaded_count;
                               upload_failed := failed_count;
                               total := length file_paths |}, w'')
          end
      end
  end.

(** ** More vocabulary and example data *)

Definition has_slash (s : string) : bool :=
  existsb (Ascii.eqb "/"%char) (list_ascii_of_string s).

Definition first_char (s : string) : option ascii :=
  head (list_ascii_of_string s).

(** A line that the loop of [clean_html_to_markdown] takes for empty. *)
Definition is_blank (line : string) : bool :=
  String.eqb (py_strip line) EmptyString.

(** No two blank lines in a row. *)
Fixpoint no_adjacent_blank (lines : list string) : bool :=
  match lines with
  | a :: (b :: _) as rest =>
      negb (is_blank a && is_blank b) && no_adjacent_blank rest
  | _ => true
  end.

Definition sum_stats (s : Stats) : nat :=
  added s + updated s + skipped s + failed s.

Definition is_article_request (r : Request) : bool :=
  match r with
  | GetArticle _ => true
  | _ => false
  end.

(** A catalog that never ends: every page has one article and announces a
    next page. *)
Definition net_endless : Net :=
  {| get_articles_page := fun _ _ _ => PageOk [article_A] true;
     get_article := fun _ _ => Some (content_of "foo");
     post_file := fun _ _ _ => None;
     post_vector_store_file := fun _ _ _ => false;
     datetime_now_isoformat := fun _ => "2024-01-02T03:04:05" |}.

(** The register step fails. *)
Definition net_register_fails : Net :=
  {| get_articles_page := fun _ _ _ => PageError;
     get_article := fun _ _ => None;
     post_file := fun _ _ _ => None;
     post_vector_store_file := fun _ _ _ => true;
     datetime_now_isoformat := fun _ => "2024-01-02T03:04:05" |}.

(** Libraries that leave plain text as it is. *)
Definition plain_libs : Libs :=
  {| bs4_decompose := fun s => s;
     h2t_handle := fun s => s;
     md5_hexdigest := fun s => s |}.

(** An environment with the bearer token. *)
Definition env_key : OsEnv :=
  {| OPENAI_API_KEY := Some "sk-test"; VECTOR_STORE_ID := Some "vs_1";
     ASSISTANT_ID := None |}.

(** * Properties *)

(** ** Strings *)

Lemma list_ascii_of_append (a b : string) :
  list_ascii_of_string (a +:+ b)
  = list_ascii_of_string a ++ list_ascii_of_string b.
Proof. induction a as [|c a IH]; simpl; [done | by rewrite IH]. Qed.

Lemma list_ascii_inj (a b : string) :
  list_ascii_of_string a = list_ascii_of_string b -> a = b.
Proof.
  intros E. rewrite <- (string_of_list_ascii_of_string a),
    <- (string_of_list_ascii_of_string b). by rewrite E.
Qed.

Lemma append_inv_tail (a b c : string) : a +:+ c = b +:+ c -> a = b.
Proof.
  intros E. apply list_ascii_inj.
  apply (f_equal list_ascii_of_string) in E.
  rewrite !list_ascii_of_append in E. by apply app_inv_tail in E.
Qed.

Lemma append_empty_r (a : string) : a +:+ EmptyString = a.
Proof.
  apply list_ascii_inj. rewrite list_ascii_of_append. apply app_nil_r.
Qed.

Lemma append_assoc (a b c : string) : (a +:+ b) +:+ c = a +:+ b +:+ c.
Proof.
  apply list_ascii_inj. rewrite !list_ascii_of_append. by rewrite app_assoc.
Qed.

Lemma last_char_append (a s : string) :
  s <> EmptyString -> last_char (a +:+ s) = last_char s.
Proof.
  intros Hs. unfold last_char. rewrite list_ascii_of_append, last_app.
  destruct (last (list_ascii_of_string s)) eqn:E; [done |].
  apply last_None in E. destruct s; [done | discriminate].
Qed.

Lemma head_lstrip_chars (l : list ascii) (c : ascii) :
  head (lstrip_chars l) = Some c -> py_isspace c = false.
Proof.
  induction l as [|x l IH]; simpl; [done |].
  destruct (py_isspace x) eqn:E; [exact IH |].
  simpl. intros [= <-]. exact E.
Qed.

(** What [strip] returns does not end with white space. *)
Lemma last_char_py_strip (s : string) (c : ascii) :
  last_char (py_strip s) = Some c -> py_isspace c = false.
Proof.
  unfold last_char, py_strip, rstrip_chars.
  rewrite list_ascii_of_string_of_list_ascii, last_reverse.
  apply head_lstrip_chars.
Qed.

Lemma filename_of_inj (a b : string) : filename_of a = filename_of b -> a = b.
Proof. apply append_inv_tail. Qed.

Lemma article_path_inj (f g : string) :
  os_path_join scraper_articles_dir f = os_path_join scraper_articles_dir g ->
  f = g.
Proof.
  unfold os_path_join, scraper_articles_dir.
  destruct (startswith_slash f) eqn:Ef, (startswith_slash g) eqn:Eg;
    simpl; intros E.
  - exact E.
  - subst f. discriminate.
  - subst g. discriminate.
  - by simplify_eq.
Qed.

(** ** Dictionaries *)

Lemma dict_get_set_eq {V} (k : string) (v : V) (d : list (string * V)) :
  dict_get k (dict_set k v d) = Some v.
Proof.
  induction d as [|[k' v'] d IH]; simpl.
  - by rewrite String.eqb_refl.
  - destruct (String.eqb k k') eqn:E; simpl; rewrite E; [done | exact IH].
Qed.

Lemma dict_get_set_ne {V} (k k0 : string) (v : V) (d : list (string * V)) :
  k0 <> k -> dict_get k (dict_set k0 v d) = dict_get k d.
Proof.
  intros Hne. induction d as [|[k' v'] d IH]; simpl.
  - destruct (String.eqb_spec k k0); [congruence | done].
  - destruct (String.eqb_spec k0 k'); simpl.
    + subst k'. destruct (String.eqb_spec k k0); [congruence | done].
    + by rewrite IH.
Qed.

(** An assignment keeps the keys that were there, in their order. *)
Lemma dict_keys_set {V} (k : string) (v : V) (d : list (string * V)) :
  dict_keys d `prefix_of` dict_keys (dict_set k v d).
Proof.
  induction d as [|[k' v'] d IH]; simpl.
  - apply prefix_nil.
  - destruct (String.eqb k k'); simpl; [done | by apply prefix_cons].
Qed.

Lemma dict_get_Some_keys {V} (k : string) (v : V) (d : list (string * V)) :
  dict_get k d = Some v -> In k (dict_keys d).
Proof.
  induction d as [|[k' v'] d IH]; simpl; [done |].
  destruct (String.eqb_spec k k'); [auto | intros E; right; auto].
Qed.

Lemma dict_keys_get {V} (k : string) (d : list (string * V)) :
  In k (dict_keys d) -> exists v, dict_get k d = Some v.
Proof.
  induction d as [|[k' v'] d IH]; simpl; [done |].
  destruct (String.eqb_spec k k'); [eauto |].
  intros [E | Hin]; [congruence | auto].
Qed.

(** ** The catalog lister *)

Lemma send_send_all (r : Request) (rs : list Request) (w : World) :
  send_all rs (send r w) = send_all (r :: rs) w.
Proof. unfold send_all, send; simpl. by rewrite <- app_assoc. Qed.

Lemma tick_send (r : Request) (w : World) : tick (send r w) = S (tick w).
Proof. unfold tick, send; simpl. rewrite length_app; simpl. lia. Qed.

Lemma stops_false (r : PageResponse) :
  stops r = false -> exists x l, r = PageOk (x :: l) true.
Proof.
  destruct r as [|[|x l] [|]]; simpl; try discriminate. eauto.
Qed.

Lemma flat_map_seq_S {A} (f : nat -> list A) (n : nat) :
  forall a, flat_map f (seq (S a) n) = flat_map (fun i => f (S i)) (seq a n).
Proof. induction n as [|n IH]; intros a; simpl; [done | by rewrite IH]. Qed.

Lemma map_seq_S {A} (f : nat -> A) (n : nat) :
  forall a, map f (seq (S a) n) = map (fun i => f (S i)) (seq a n).
Proof. induction n as [|n IH]; intros a; simpl; [done | by rewrite IH]. Qed.

Lemma flat_map_seq_cons {A} (f : nat -> list A) (n a : nat) :
  flat_map f (seq a (S n)) = f a ++ flat_map (fun i => f (S i)) (seq a n).
Proof. simpl. by rewrite flat_map_seq_S. Qed.

Lemma map_seq_cons {A} (f : nat -> A) (n a : nat) :
  map f (seq a (S n)) = f a :: map (fun i => f (S i)) (seq a n).
Proof. simpl. by rewrite map_seq_S. Qed.

(** The loop started at [page] with [k] pages that do not end the listing
    ahead of it, then one that does. *)
Lemma fetch_articles_loop_pages (N : Net) (per_page k : nat) :
  forall (fuel page : nat) (articles : list ArticleInfo) (w : World),
  (forall i, i < k ->
     stops (get_articles_page N (tick w + i) (page + i) per_page) = false) ->
  stops (get_articles_page N (tick w + k) (page + k) per_page) = true ->
  k < fuel ->
  fetch_articles_loop fuel N per_page page articles w
  = Some (articles
          ++ flat_map (fun i => page_items
                         (get_articles_page N (tick w + i) (page + i) per_page))
               (seq 0 (S k)),
          send_all (map (fun i => GetArticlesPage (page + i) per_page)
                        (seq 0 (S k))) w).
Proof.
  induction k as [|k IH]; intros fuel page articles w Hgo Hstop Hfuel;
    (destruct fuel as [|fuel]; [lia |]); simpl fetch_articles_loop.
  - rewrite !Nat.add_0_r in Hstop.
    simpl. rewrite !Nat.add_0_r, app_nil_r.
    destruct (get_articles_page N (tick w) page per_page)
      as [|[|x l] [|]]; simpl in *; try discriminate;
      rewrite ?app_nil_r; done.
  - pose proof (Hgo 0 ltac:(lia)) as H0. rewrite !Nat.add_0_r in H0.
    destruct (stops_false _ H0) as (x & l & E). rewrite E.
    rewrite (IH fuel (S page) (articles ++ x :: l)
               (send (GetArticlesPage page per_page) w)).
    + rewrite send_send_all, <- app_assoc.
      rewrite (flat_map_seq_cons _ (S k)), (map_seq_cons _ (S k)).
      rewrite !Nat.add_0_r, E. simpl page_items.
      f_equal. f_equal.
      * f_equal. f_equal. apply flat_map_ext. intros i. rewrite tick_send.
        f_equal. f_equal; lia.
      * f_equal. f_equal. apply map_ext. intros i. f_equal. lia.
    + intros i Hi. rewrite tick_send.
      replace (S (tick w) + i) with (tick w + S i) by lia.
      replace (S page + i) with (page + S i) by lia. apply Hgo. lia.
    + rewrite tick_send.
      replace (S (tick w) + k) with (tick w + S k) by lia.
      replace (S page + k) with (page + S k) by lia. exact Hstop.
    + lia.
Qed.

(** C7.  When the pages 1 to [k] of the catalog are non-empty and announce a
    next page, and page [k + 1] is the first answer that ends the listing
    (an error, no item, or no next page), [fetch_articles_list] returns,
    with any fuel above [k], the items of the pages 1 to [k + 1] in page
    order, a page in error contributing nothing; it has sent exactly one
    request per page from 1 to [k + 1], and when page [k + 1] is in error
    the result is what the pages 1 to [k] had accumulated. *)
Theorem fetch_articles_list_pages (N : Net) (w : World) (k fuel : nat) :
  (forall p, 1 <= p <= k -> stops (served N w p) = false) ->
  stops (served N w (S k)) = true ->
  k < fuel ->
  exists w',
    fetch_articles_list fuel N w
    = Some (flat_map (fun p => page_items (served N w p)) (seq 1 (S k)), w')
    /\ requests w'
       = requests w ++ map (fun p => GetArticlesPage p 100) (seq 1 (S k))
    /\ files w' = files w
    /\ metadata_file w' = metadata_file w
    /\ (served N w (S k) = PageError ->
        flat_map (fun p => page_items (served N w p)) (seq 1 (S k))
        = flat_map (fun p => page_items (served N w p)) (seq 1 k)).
Proof.
  intros Hgo Hstop Hfuel. unfold fetch_articles_list.
  eexists. split; [| split; [| split; [| split]]].
  - rewrite (fetch_articles_loop_pages N 100 k fuel 1 [] w); [| | | done].
    + rewrite app_nil_l. f_equal. f_equal. rewrite flat_map_seq_S.
      apply flat_map_ext. intros i. unfold served.
      by replace (S i - 1) with i by lia.
    + intros i Hi. specialize (Hgo (S i) ltac:(lia)).
      unfold served in Hgo. by replace (S i - 1) with i in Hgo by lia.
    + unfold served in Hstop. by replace (S k - 1) with k in Hstop by lia.
  - unfold send_all. cbn [requests]. f_equal. rewrite map_seq_S.
    reflexivity.
  - done.
  - done.
  - intros E. rewrite seq_S, flat_map_app. simpl. rewrite E. simpl.
    by rewrite app_nil_r.
Qed.

(** Without an answer that ends the listing the loop never returns. *)
Lemma fetch_articles_loop_diverges (N : Net) (per_page : nat) :
  (forall t p, stops (get_articles_page N t p per_page) = false) ->
  forall fuel page articles w,
    fetch_articles_loop fuel N per_page page articles w = None.
Proof.
  intros Hgo. induction fuel as [|fuel IH]; intros page articles w; simpl.
  - done.
  - destruct (stops_false _ (Hgo (tick w) page)) as (x & l & E).
    rewrite E. apply IH.
Qed.

(** ** The change-detection engine *)

Section Engine.
Context `{Libs}.

Lemma scrape_article_world (N : Net) (d : ArticleInfo) (w : World) :
  snd (scrape_article N d w) = send (GetArticle (ai_id d)) w.
Proof.
  unfold scrape_article, fetch_article_content.
  destruct (get_article N (tick w) (ai_id d)) as [a|]; [| done].
  by destruct (_ || _).
Qed.

(** [scrape_article] returns nothing exactly when the fetch fails or the
    markdown is empty or is the header alone. *)
Lemma scrape_article_None (N : Net) (d : ArticleInfo) (w : World) :
  fst (scrape_article N d w) = None <->
  get_article N (tick w) (ai_id d) = None
  \/ exists a, get_article N (tick w) (ai_id d) = Some a
       /\ (clean_html_to_markdown (body a) (html_url a) = EmptyString
           \/ clean_html_to_markdown (body a) (html_url a)
              = article_url_header (html_url a)).
Proof.
  unfold scrape_article, fetch_article_content.
  destruct (get_article N (tick w) (ai_id d)) as [a|]; simpl.
  - destruct (String.eqb_spec (clean_html_to_markdown (body a) (html_url a))
                EmptyString) as [E1|E1]; simpl.
    + split; [intros _; right; eauto | done].
    + destruct (String.eqb_spec (clean_html_to_markdown (body a) (html_url a))
                  (article_url_header (html_url a))) as [E2|E2]; simpl.
      * split; [intros _; right; eauto | done].
      * split; [done |]. intros [? | (a' & [= <-] & [? | ?])]; done.
  - split; [auto | done].
Qed.

Lemma scrape_article_Some (N : Net) (d : ArticleInfo) (w : World)
  (data : ArticleData) :
  fst (scrape_article N d w) = Some data ->
  exists a, get_article N (tick w) (ai_id d) = Some a
    /\ ad_markdown data = clean_html_to_markdown (body a) (html_url a)
    /\ ad_hash data = get_article_hash (ad_markdown data)
    /\ ad_markdown data <> EmptyString
    /\ ad_markdown data <> article_url_header (html_url a).
Proof.
  unfold scrape_article, fetch_article_content.
  destruct (get_article N (tick w) (ai_id d)) as [a|]; simpl; [| done].
  destruct (String.eqb_spec (clean_html_to_markdown (body a) (html_url a))
              EmptyString) as [E1|E1]; simpl; [done |].
  destruct (String.eqb_spec (clean_html_to_markdown (body a) (html_url a))
              (article_url_header (html_url a))) as [E2|E2]; simpl; [done |].
  intros [= <-]. exists a. simpl. done.
Qed.

(** The four branches of the loop body. *)
Lemma scrape_step_failed (N : Net) (st : RunState) (w : World)
  (d : ArticleInfo) :
  fst (scrape_article N d w) = None ->
  scrape_step N (st, w) d
  = ({| stats := {| added := added (stats st);
                    updated := updated (stats st);
                    skipped := skipped (stats st);
                    failed := failed (stats st) + 1 |};
        new_articles := new_articles st;
        metadata := metadata st;
        outcomes := outcomes st ++ [(ai_id d, Failed)] |},
     send (GetArticle (ai_id d)) w).
Proof.
  intros E. unfold scrape_step. rewrite <- (scrape_article_world N d w).
  destruct (scrape_article N d w) as [[data|] w1]; simpl in *; done.
Qed.

Lemma scrape_step_unchanged (N : Net) (st : RunState) (w : World)
  (d : ArticleInfo) (data : ArticleData) (record : FingerprintRecord) :
  fst (scrape_article N d w) = Some data ->
  dict_get (ai_id d) (metadata st) = Some record ->
  fr_hash record = ad_hash data ->
  scrape_step N (st, w) d
  = ({| stats := {| added := added (stats st);
                    updated := updated (stats st);
                    skipped := skipped (stats st) + 1;
                    failed := failed (stats st) |};
        new_articles := new_articles st;
        metadata := metadata st;
        outcomes := outcomes st ++ [(ai_id d, Unchanged)] |},
     send (GetArticle (ai_id d)) w).
Proof.
  intros E Hget Hh. unfold scrape_step.
  rewrite <- (scrape_article_world N d w).
  destruct (scrape_article N d w) as [[data'|] w1]; simpl in *; [| done].
  injection E as ->. rewrite Hget, Hh, String.eqb_refl. done.
Qed.

Lemma scrape_step_updated (N : Net) (st : RunState) (w : World)
  (d : ArticleInfo) (data : ArticleData) (record : FingerprintRecord) :
  fst (scrape_article N d w) = Some data ->
  dict_get (ai_id d) (metadata st) = Some record ->
  fr_hash record <> ad_hash data ->
  scrape_step N (st, w) d
  = ({| stats := {| added := added (stats st);
                    updated := updated (stats st) + 1;
                    skipped := skipped (stats st);
                    failed := failed (stats st) |};
        new_articles := new_articles st ++ [filename_of (ai_id d)];
        metadata :=
          dict_set (ai_id d)
            {| fr_hash := ad_hash data;
               fr_url := fr_url record;
               fr_title := fr_title record;
               fr_filename := fr_filename record;
               fr_last_updated := ad_scraped_at data |} (metadata st);
        outcomes := outcomes st ++ [(ai_id d, Updated)] |},
     save_article data (filename_of (ai_id d))
       (send (GetArticle (ai_id d)) w)).
Proof.
  intros E Hget Hh. unfold scrape_step.
  rewrite <- (scrape_article_world N d w).
  destruct (scrape_article N d w) as [[data'|] w1]; simpl in *; [| done].
  injection E as ->. rewrite Hget.
  destruct (String.eqb_spec (fr_hash record) (ad_hash data)); done.
Qed.

Lemma scrape_step_added (N : Net) (st : RunState) (w : World)
  (d : ArticleInfo) (data : ArticleData) :
  fst (scrape_article N d w) = Some data ->
  dict_get (ai_id d) (metadata st) = None ->
  scrape_step N (st, w) d
  = ({| stats := {| added := added (stats st) + 1;
                    updated := updated (stats st);
                    skipped := skipped (stats st);
                    failed := failed (stats st) |};
        new_articles := new_articles st ++ [filename_of (ai_id d)];
        metadata :=
          dict_set (ai_id d)
            {| fr_hash := ad_hash data;
               fr_url := ad_url data;
               fr_title := ad_title data;
               fr_filename := filename_of (ai_id d);
               fr_last_updated := ad_scraped_at data |} (metadata st);
        outcomes := outcomes st ++ [(ai_id d, Added)] |},
     save_article data (filename_of (ai_id d))
       (send (GetArticle (ai_id d)) w)).
Proof.
  intros E Hget. unfold scrape_step.
  rewrite <- (scrape_article_world N d w).
  destruct (scrape_article N d w) as [[data'|] w1]; simpl in *; [| done].
  injection E as ->. rewrite Hget. done.
Qed.

(** Case analysis on the branch that the loop body takes. *)
Lemma scrape_step_cases (N : Net) (st : RunState) (w : World)
  (d : ArticleInfo) :
  fst (scrape_article N d w) = None
  \/ (exists data record,
        fst (scrape_article N d w) = Some data
        /\ dict_get (ai_id d) (metadata st) = Some record
        /\ fr_hash record = ad_hash data)
  \/ (exists data record,
        fst (scrape_article N d w) = Some data
        /\ dict_get (ai_id d) (metadata st) = Some record
        /\ fr_hash record <> ad_hash data)
  \/ (exists data,
        fst (scrape_article N d w) = Some data
        /\ dict_get (ai_id d) (metadata st) = None).
Proof.
  destruct (fst (scrape_article N d w)) as [data|]; [| by left].
  right. destruct (dict_get (ai_id d) (metadata st)) as [record|].
  - destruct (decide (fr_hash record = ad_hash data)).
    + left. eauto.
    + right. left. eauto.
  - right. right. eauto.
Qed.

Lemma scrape_loop_cons (N : Net) (d : ArticleInfo) (l : list ArticleInfo)
  (s : RunState * World) :
  scrape_loop N (d :: l) s = scrape_loop N l (scrape_step N s d).
Proof. done. Qed.

Lemma scrape_loop_app (N : Net) (l1 l2 : list ArticleInfo)
  (s : RunState * World) :
  scrape_loop N (l1 ++ l2) s = scrape_loop N l2 (scrape_loop N l1 s).
Proof. apply fold_left_app. Qed.

(** A property that the loop body preserves holds after the loop. *)
Lemma scrape_loop_invariant (P : RunState * World -> Prop) (N : Net)
  (l : list ArticleInfo) :
  (forall s d, P s -> P (scrape_step N s d)) ->
  forall s, P s -> P (scrape_loop N l s).
Proof.
  intros Hstep. induction l as [|d l IH]; intros s Hs; [done |].
  rewrite scrape_loop_cons. apply IH, Hstep, Hs.
Qed.

(** The two ways in which [scrape_all] returns. *)
Lemma scrape_all_returns (fuel : nat) (limit : Z) (N : Net) (w : World)
  (r : ScrapeResult) (w' : World) :
  scrape_all fuel limit N w = Some (r, w') ->
  (fetch_articles_list fuel N w = Some ([], w')
   /\ r = {| r_stats := zero_stats; r_new_articles := []; r_outcomes := [] |})
  \/ (exists all_articles w1 st w2,
        fetch_articles_list fuel N w = Some (all_articles, w1)
        /\ all_articles <> []
        /\ scrape_loop N (py_slice_to all_articles limit)
             (init_run (load_metadata w1), w1) = (st, w2)
        /\ r = {| r_stats := stats st;
                  r_new_articles := new_articles st;
                  r_outcomes := outcomes st |}
        /\ w' = save_metadata (metadata st) w2).
Proof.
  unfold scrape_all.
  destruct (fetch_articles_list fuel N w) as [[[|d l] w1]|]; [| | done].
  - intros [= <- <-]. by left.
  - destruct (scrape_loop N _ _) as [st w2] eqn:E.
    intros [= <- <-]. right. exists (d :: l), w1, st, w2. done.
Qed.

(** *** What the loop keeps true *)

Lemma dict_keys_set_present {V} (k : string) (v v' : V)
  (d : list (string * V)) :
  dict_get k d = Some v -> dict_keys (dict_set k v' d) = dict_keys d.
Proof.
  induction d as [|[k' x] d IH]; simpl; [done |].
  destruct (String.eqb k k') eqn:E; simpl; [done |].
  intros Hget. by rewrite (IH Hget).
Qed.

Lemma count_outcomes_snoc (c c' : Classification) (k : string)
  (os : list (string * Classification)) :
  count_outcomes c (os ++ [(k, c')])
  = count_outcomes c os + (if decide (c' = c) then 1 else 0).
Proof.
  unfold count_outcomes. rewrite List.filter_app, length_app. simpl.
  unfold bool_decide. by destruct (decide_rel eq c' c), (decide (c' = c)).
Qed.

Lemma delta_invariant_init (m : Metadata) : delta_invariant (init_run m).
Proof. by repeat split. Qed.

Lemma delta_invariant_step (N : Net) (s : RunState * World)
  (d : ArticleInfo) :
  delta_invariant (fst s) -> delta_invariant (fst (scrape_step N s d)).
Proof.
  destruct s as [st w]. simpl fst at 1. intros (Hn & Ha & Hu & Hs & Hf).
  destruct (scrape_step_cases N st w d)
    as [E | [(data & record & E & Hg & Hh)
          | [(data & record & E & Hg & Hh) | (data & E & Hg)]]].
  - rewrite (scrape_step_failed N st w d E). unfold delta_invariant; simpl.
    rewrite !count_outcomes_snoc, List.filter_app, map_app; simpl.
    rewrite app_nil_r. repeat split; simpl; lia || done.
  - rewrite (scrape_step_unchanged N st w d data record E Hg Hh).
    unfold delta_invariant; simpl.
    rewrite !count_outcomes_snoc, List.filter_app, map_app; simpl.
    rewrite app_nil_r. repeat split; simpl; lia || done.
  - rewrite (scrape_step_updated N st w d data record E Hg Hh).
    unfold delta_invariant; simpl.
    rewrite !count_outcomes_snoc, List.filter_app, map_app; simpl.
    repeat split; simpl; try lia. by rewrite Hn.
  - rewrite (scrape_step_added N st w d data E Hg).
    unfold delta_invariant; simpl.
    rewrite !count_outcomes_snoc, List.filter_app, map_app; simpl.
    repeat split; simpl; try lia. by rewrite Hn.
Qed.

Lemma scrape_loop_delta_invariant (N : Net) (l : list ArticleInfo)
  (s : RunState * World) :
  delta_invariant (fst s) -> delta_invariant (fst (scrape_loop N l s)).
Proof.
  apply (scrape_loop_invariant (fun s => delta_invariant (fst s))).
  intros s' d. apply delta_invariant_step.
Qed.

Lemma length_filter_is_delta (os : list (string * Classification)) :
  length (List.filter (fun o => is_delta (snd o)) os)
  = count_outcomes Added os + count_outcomes Updated os.
Proof.
  unfold count_outcomes. induction os as [|[k c] os IH]; simpl; [done |].
  destruct c; simpl; lia.
Qed.

Lemma NoDup_fst_functional {A B} (l : list (A * B)) (k : A) (a b : B) :
  NoDup (map fst l) -> In (k, a) l -> In (k, b) l -> a = b.
Proof.
  induction l as [|[k' x] l IH]; simpl; [done |].
  intros Hnd. apply NoDup_cons in Hnd as [Hnotin Hnd].
  intros [Ea | Ha] [Eb | Hb].
  - congruence.
  - injection Ea as -> ->. exfalso. apply Hnotin.
    apply list_elem_of_In, in_map_iff. by exists (k, b).
  - injection Eb as -> ->. exfalso. apply Hnotin.
    apply list_elem_of_In, in_map_iff. by exists (k, a).
  - auto.
Qed.

(** Every step keeps the keys of the store, in their order. *)
Lemma scrape_step_keys (N : Net) (s : RunState * World) (d : ArticleInfo) :
  dict_keys (metadata (fst s))
    `prefix_of` dict_keys (metadata (fst (scrape_step N s d))).
Proof.
  destruct s as [st w].
  destruct (scrape_step_cases N st w d)
    as [E | [(data & record & E & Hg & Hh)
          | [(data & record & E & Hg & Hh) | (data & E & Hg)]]].
  - by rewrite (scrape_step_failed N st w d E).
  - by rewrite (scrape_step_unchanged N st w d data record E Hg Hh).
  - rewrite (scrape_step_updated N st w d data record E Hg Hh). simpl.
    apply dict_keys_set.
  - rewrite (scrape_step_added N st w d data E Hg). simpl.
    apply dict_keys_set.
Qed.

Lemma scrape_loop_keys (N : Net) (l : list ArticleInfo) :
  forall s, dict_keys (metadata (fst s))
              `prefix_of` dict_keys (metadata (fst (scrape_loop N l s))).
Proof.
  induction l as [|d l IH]; intros s; [done |].
  rewrite scrape_loop_cons. etrans; [apply (scrape_step_keys N s d) | apply IH].
Qed.

(** The loop leaves the metadata file alone. *)
Lemma scrape_step_metadata_file (N : Net) (s : RunState * World)
  (d : ArticleInfo) :
  metadata_file (snd (scrape_step N s d)) = metadata_file (snd s).
Proof.
  destruct s as [st w].
  destruct (scrape_step_cases N st w d)
    as [E | [(data & record & E & Hg & Hh)
          | [(data & record & E & Hg & Hh) | (data & E & Hg)]]].
  - by rewrite (scrape_step_failed N st w d E).
  - by rewrite (scrape_step_unchanged N st w d data record E Hg Hh).
  - by rewrite (scrape_step_updated N st w d data record E Hg Hh).
  - by rewrite (scrape_step_added N st w d data E Hg).
Qed.

Lemma fetch_articles_loop_world (fuel : nat) (N : Net) (per_page : nat) :
  forall page articles w result w',
  fetch_articles_loop fuel N per_page page articles w = Some (result, w') ->
  files w' = files w
  /\ metadata_file w' = metadata_file w
  /\ exists rs, requests w' = requests w ++ rs
       /\ forallb is_scrape_request rs = true.
Proof.
  induction fuel as [|fuel IH]; intros page articles w result w'; simpl;
    [done |].
  assert (Hstop : forall res,
    Some (res, send (GetArticlesPage page per_page) w) = Some (result, w') ->
    files w' = files w /\ metadata_file w' = metadata_file w
    /\ exists rs, requests w' = requests w ++ rs
         /\ forallb is_scrape_request rs = true).
  { intros res [= _ <-]. repeat split.
    by exists [GetArticlesPage page per_page]. }
  destruct (get_articles_page N (tick w) page per_page)
    as [|[|x l] [|]]; eauto.
  intros E. apply IH in E as (Hf & Hm & rs & Hr & Hall).
  repeat split; [done | done |].
  exists (GetArticlesPage page per_page :: rs). split.
  - rewrite Hr. simpl. by rewrite <- app_assoc.
  - done.
Qed.

End Engine.

(** ** The claims on the engine *)

Section EngineClaims.
Context `{Libs}.

(** C1 (amended).  The list returned by [scrape_all] is, in order, the file
    names of the descriptors given the verdict Added or Updated in that run;
    its length is [added + updated], the two counters being the numbers of
    such verdicts; a file name is in the list exactly when some descriptor
    of that id got one of these two verdicts; and when no id was processed
    twice in the run, no file name of an article with the verdict Unchanged
    or Failed is in the list. *)
Theorem scrape_all_delta_set (fuel : nat) (limit : Z) (N : Net) (w : World)
  (r : ScrapeResult) (w' : World) :
  scrape_all fuel limit N w = Some (r, w') ->
  r_new_articles r
  = map (fun o => filename_of (fst o))
        (List.filter (fun o => is_delta (snd o)) (r_outcomes r))
  /\ length (r_new_articles r) = added (r_stats r) + updated (r_stats r)
  /\ added (r_stats r) = count_outcomes Added (r_outcomes r)
  /\ updated (r_stats r) = count_outcomes Updated (r_outcomes r)
  /\ (forall f, In f (r_new_articles r) <->
        exists id c, In (id, c) (r_outcomes r)
                     /\ (c = Added \/ c = Updated) /\ f = filename_of id)
  /\ (NoDup (map fst (r_outcomes r)) ->
      forall id c, In (id, c) (r_outcomes r) ->
        c = Unchanged \/ c = Failed ->
        ~ In (filename_of id) (r_new_articles r)).
Proof.
  intros Hrun.
  assert (Hinv : delta_invariant
            {| stats := r_stats r; new_articles := r_new_articles r;
               metadata := []; outcomes := r_outcomes r |}).
  { apply scrape_all_returns in Hrun
      as [[_ ->] | (all & w1 & st & w2 & _ & _ & Hloop & -> & _)].
    - by repeat split.
    - pose proof (scrape_loop_delta_invariant N (py_slice_to all limit)
                    (init_run (load_metadata w1), w1)
                    (delta_invariant_init _)) as Hinv.
      rewrite Hloop in Hinv. exact Hinv. }
  destruct Hinv as (Hn & Ha & Hu & _ & _). simpl in *.
  assert (Hmem : forall f, In f (r_new_articles r) <->
            exists id c, In (id, c) (r_outcomes r)
                         /\ (c = Added \/ c = Updated) /\ f = filename_of id).
  { intros f. rewrite Hn, in_map_iff. split.
    - intros ([id c] & <- & Hin). apply filter_In in Hin as [Hin Hd].
      exists id, c. repeat split; [done |]. destruct c; auto; done.
    - intros (id & c & Hin & Hc & ->). exists (id, c). split; [done |].
      apply filter_In. split; [done |]. by destruct Hc as [-> | ->]. }
  repeat split; try done.
  - by rewrite Hn, length_map, length_filter_is_delta, Ha, Hu.
  - apply Hmem.
  - apply Hmem.
  - intros Hnd id c Hin Hc Hf. apply Hmem in Hf as (id' & c' & Hin' & Hc' & E).
    apply filename_of_inj in E as ->.
    pose proof (NoDup_fst_functional _ _ _ _ Hnd Hin Hin') as ->.
    destruct Hc as [-> | ->], Hc' as [? | ?]; done.
Qed.

(** C4.  When the fetch of a descriptor fails (no article is returned), or
    its markdown is empty or is the header line alone, the loop of
    [scrape_all] gives it the verdict Failed and counts it as failed; the
    store, the article files, the metadata file and the list of new file
    names are as they were; and the loop goes on with the descriptors that
    follow. *)
Theorem scrape_all_failed_article (N : Net) (pre : list ArticleInfo)
  (d : ArticleInfo) (post : list ArticleInfo) (s0 : RunState * World)
  (st : RunState) (w : World) :
  scrape_loop N pre s0 = (st, w) ->
  (get_article N (tick w) (ai_id d) = None
   \/ exists a, get_article N (tick w) (ai_id d) = Some a
        /\ (clean_html_to_markdown (body a) (html_url a) = EmptyString
            \/ clean_html_to_markdown (body a) (html_url a)
               = article_url_header (html_url a))) ->
  exists st' w',
    scrape_step N (st, w) d = (st', w')
    /\ outcomes st' = outcomes st ++ [(ai_id d, Failed)]
    /\ failed (stats st') = failed (stats st) + 1
    /\ added (stats st') = added (stats st)
    /\ updated (stats st') = updated (stats st)
    /\ skipped (stats st') = skipped (stats st)
    /\ metadata st' = metadata st
    /\ files w' = files w
    /\ metadata_file w' = metadata_file w
    /\ new_articles st' = new_articles st
    /\ scrape_loop N (pre ++ d :: post) s0 = scrape_loop N post (st', w').
Proof.
  intros Hpre Hfail. apply scrape_article_None in Hfail.
  eexists _, _. split; [apply (scrape_step_failed N st w d Hfail) |].
  simpl. repeat split.
  rewrite scrape_loop_app, Hpre, scrape_loop_cons.
  by rewrite (scrape_step_failed N st w d Hfail).
Qed.

(** C5.  When the id of a descriptor is in the store and the fingerprint of
    what was just scraped differs from the stored one, the loop of
    [scrape_all] gives the verdict Updated, writes the markdown over the
    cached file, replaces the fingerprint and the time stamp of the record
    and nothing else (its url, title and file name, the other records and
    the order of the keys are as they were), and appends the file name to
    the list of new file names. *)
Theorem scrape_all_updated_article (N : Net) (pre : list ArticleInfo)
  (d : ArticleInfo) (post : list ArticleInfo) (s0 : RunState * World)
  (st : RunState) (w : World) (data : ArticleData)
  (record : FingerprintRecord) :
  scrape_loop N pre s0 = (st, w) ->
  dict_get (ai_id d) (metadata st) = Some record ->
  fst (scrape_article N d w) = Some data ->
  fr_hash record <> ad_hash data ->
  exists st' w',
    scrape_step N (st, w) d = (st', w')
    /\ outcomes st' = outcomes st ++ [(ai_id d, Updated)]
    /\ updated (stats st') = updated (stats st) + 1
    /\ ad_hash data = get_article_hash (ad_markdown data)
    /\ files w'
       = <[os_path_join scraper_articles_dir (filename_of (ai_id d))
           := ad_markdown data]> (files w)
    /\ dict_get (ai_id d) (metadata st')
       = Some {| fr_hash := ad_hash data;
                 fr_url := fr_url record;
                 fr_title := fr_title record;
                 fr_filename := fr_filename record;
                 fr_last_updated := ad_scraped_at data |}
    /\ (forall k, k <> ai_id d ->
          dict_get k (metadata st') = dict_get k (metadata st))
    /\ dict_keys (metadata st') = dict_keys (metadata st)
    /\ new_articles st' = new_articles st ++ [filename_of (ai_id d)]
    /\ scrape_loop N (pre ++ d :: post) s0 = scrape_loop N post (st', w').
Proof.
  intros Hpre Hget Hdata Hneq.
  eexists _, _.
  split; [apply (scrape_step_updated N st w d data record Hdata Hget Hneq) |].
  simpl. repeat split.
  - by apply scrape_article_Some in Hdata as (a & _ & _ & Hh & _).
  - apply dict_get_set_eq.
  - intros k Hk. apply dict_get_set_ne. congruence.
  - by apply (dict_keys_set_present _ record).
  - rewrite scrape_loop_app, Hpre, scrape_loop_cons.
    by rewrite (scrape_step_updated N st w d data record Hdata Hget Hneq).
Qed.

(** C10.  A run of [scrape_all] that returns leaves in the metadata file
    every id that was there before, in the same order: the keys before the
    run are a prefix of the keys after it. *)
Theorem scrape_all_keeps_records (fuel : nat) (limit : Z) (N : Net)
  (w : World) (r : ScrapeResult) (w' : World) :
  scrape_all fuel limit N w = Some (r, w') ->
  dict_keys (load_metadata w) `prefix_of` dict_keys (load_metadata w')
  /\ (forall id, In id (dict_keys (load_metadata w)) ->
                 In id (dict_keys (load_metadata w'))).
Proof.
  intros Hrun.
  assert (Hp : dict_keys (load_metadata w)
                 `prefix_of` dict_keys (load_metadata w')).
  { apply scrape_all_returns in Hrun
      as [[Hl _] | (all & w1 & st & w2 & Hl & _ & Hloop & _ & ->)];
      apply fetch_articles_loop_world in Hl as (_ & Hm & _).
    - unfold load_metadata. by rewrite Hm.
    - pose proof (scrape_loop_keys N (py_slice_to all limit)
                    (init_run (load_metadata w1), w1)) as Hk.
      rewrite Hloop in Hk. simpl in Hk.
      unfold load_metadata at 1. rewrite <- Hm. exact Hk. }
  split; [exact Hp |].
  intros id Hin. destruct Hp as [k ->]. apply in_or_app. by left.
Qed.

End EngineClaims.

(** ** Two runs in a row *)

Section TwoRuns.
Context `{Libs}.

Lemma last_char_header (url : string) :
  last_char (article_url_header url) = Some (ascii_of_nat 10).
Proof.
  unfold article_url_header.
  rewrite <- !append_assoc. by rewrite last_char_append.
Qed.

(** Markdown that passed the test of [scrape_article] for one url passes it
    for every url: it ends with a character that is not white space, and
    the header line ends with a line break. *)
Lemma clean_html_to_markdown_usable (html_content url : string) :
  clean_html_to_markdown html_content url <> EmptyString ->
  clean_html_to_markdown html_content url <> article_url_header url ->
  usable_markdown (clean_html_to_markdown html_content url).
Proof.
  intros Hne Hnh. split; [done |]. intros url' E.
  revert Hne Hnh E. unfold clean_html_to_markdown.
  destruct (String.eqb html_content EmptyString); [done |].
  set (body_md := py_strip _). intros _ Hnh E.
  assert (Hb : body_md <> EmptyString).
  { intros Hb. apply Hnh. by rewrite Hb, append_empty_r. }
  apply (f_equal last_char) in E.
  rewrite last_char_append, last_char_header in E by done.
  by apply last_char_py_strip in E.
Qed.

Lemma scrape_article_usable (N : Net) (d : ArticleInfo) (w : World)
  (data : ArticleData) :
  fst (scrape_article N d w) = Some data -> usable_markdown (ad_markdown data).
Proof.
  intros E. apply scrape_article_Some in E as (a & _ & -> & _ & Hne & Hnh).
  by apply clean_html_to_markdown_usable.
Qed.

Lemma article_path_ne (a b : string) : a <> b -> article_path a <> article_path b.
Proof.
  intros Hne E. apply Hne, filename_of_inj, article_path_inj, E.
Qed.

Lemma cached_invariant_step (N : Net) (s : RunState * World)
  (d : ArticleInfo) :
  cached_invariant s -> cached_invariant (scrape_step N s d).
Proof.
  destruct s as [st w]. unfold cached_invariant. intros Hinv.
  simpl in Hinv.
  assert (Hwritten : forall data (record : FingerprintRecord) m wf id,
    fst (scrape_article N d w) = Some data ->
    (forall k, k <> ai_id d -> dict_get k m = dict_get k (metadata st)) ->
    dict_get (ai_id d) m = Some record ->
    fr_hash record = ad_hash data ->
    wf = <[article_path (ai_id d) := ad_markdown data]> (files w) ->
    id = ai_id d \/ (exists c, In (id, c) (outcomes st)
                                /\ (c = Added \/ c = Updated)) ->
    exists md record,
      wf !! article_path id = Some md
      /\ dict_get id m = Some record
      /\ fr_hash record = get_article_hash md
      /\ usable_markdown md).
  { intros data record m wf id E Hother Hthis Hh -> Hid.
    destruct (decide (id = ai_id d)) as [-> | Hne].
    - exists (ad_markdown data), record.
      rewrite lookup_insert_eq. repeat split; try done.
      + rewrite Hh. by apply scrape_article_Some in E as (a & _ & _ & ? & _).
      + by apply (scrape_article_usable N d w).
      + by apply (scrape_article_usable N d w).
    - destruct Hid as [? | (c & Hin & Hc)]; [done |].
      destruct (Hinv id c Hin Hc) as (md & rec' & Hf & Hg & Hh' & Hu).
      exists md, rec'. rewrite lookup_insert_ne by by apply article_path_ne.
      by rewrite Hother. }
  destruct (scrape_step_cases N st w d)
    as [E | [(data & record & E & Hg & Hh)
          | [(data & record & E & Hg & Hh) | (data & E & Hg)]]].
  - rewrite (scrape_step_failed N st w d E). simpl. intros id c Hin Hc.
    apply in_app_or in Hin as [Hin | [[= <- <-] | []]]; [eauto |].
    by destruct Hc.
  - rewrite (scrape_step_unchanged N st w d data record E Hg Hh). simpl.
    intros id c Hin Hc.
    apply in_app_or in Hin as [Hin | [[= <- <-] | []]]; [eauto |].
    by destruct Hc.
  - rewrite (scrape_step_updated N st w d data record E Hg Hh). simpl.
    intros id c Hin Hc.
    eapply (Hwritten data); [exact E | | apply dict_get_set_eq | done | done |].
    + intros k Hk. apply dict_get_set_ne. congruence.
    + apply in_app_or in Hin as [Hin | [[= <- <-] | []]]; eauto.
  - rewrite (scrape_step_added N st w d data E Hg). simpl.
    intros id c Hin Hc.
    eapply (Hwritten data); [exact E | | apply dict_get_set_eq | done | done |].
    + intros k Hk. apply dict_get_set_ne. congruence.
    + apply in_app_or in Hin as [Hin | [[= <- <-] | []]]; eauto.
Qed.

Lemma unchanged_invariant_step (N : Net) (id md : string)
  (record : FingerprintRecord) (s : RunState * World) (d : ArticleInfo) :
  (forall t, exists a, get_article N t id = Some a
     /\ clean_html_to_markdown (body a) (html_url a) = md) ->
  usable_markdown md ->
  fr_hash record = get_article_hash md ->
  unchanged_invariant id record s ->
  unchanged_invariant id record (scrape_step N s d).
Proof.
  intros Hnet [Hne Hnh] Hrec. destruct s as [st w].
  unfold unchanged_invariant. intros Hinv. simpl in Hinv.
  destruct Hinv as (Hget & Hout & Hnew).
  destruct (decide (ai_id d = id)) as [Hid | Hid].
  - destruct (Hnet (tick w)) as (a & Ha & Hmd). rewrite <- Hid in Ha.
    destruct (fst (scrape_article N d w)) as [data|] eqn:E.
    + pose proof E as E'.
      apply scrape_article_Some in E' as (a' & Ha' & Hm & Hh & _).
      assert (a' = a) as -> by congruence.
      rewrite <- Hid in Hget.
      rewrite (scrape_step_unchanged N st w d data record E Hget); simpl.
      * rewrite Hid in *. repeat split; [done | | done].
        intros c Hin.
        apply in_app_or in Hin as [Hin | [[= <-] | []]]; auto.
      * rewrite Hrec, Hh, Hm. by rewrite Hmd.
    + apply scrape_article_None in E as [E | (a' & Ha' & [E | E])].
      * congruence.
      * assert (a' = a) as -> by congruence. by rewrite Hmd in E.
      * assert (a' = a) as -> by congruence. rewrite Hmd in E.
        by apply Hnh in E.
  - assert (Hfn : filename_of (ai_id d) <> filename_of id).
    { intros E. by apply filename_of_inj in E. }
    destruct (scrape_step_cases N st w d)
      as [E | [(data & rec' & E & Hg & Hh)
            | [(data & rec' & E & Hg & Hh) | (data & E & Hg)]]].
    + rewrite (scrape_step_failed N st w d E). simpl.
      repeat split; [done | | done]. intros c Hin.
      apply in_app_or in Hin as [Hin | [[= ? ?] | []]]; [auto | done].
    + rewrite (scrape_step_unchanged N st w d data rec' E Hg Hh). simpl.
      repeat split; [done | | done]. intros c Hin.
      apply in_app_or in Hin as [Hin | [[= ? ?] | []]]; [auto | done].
    + rewrite (scrape_step_updated N st w d data rec' E Hg Hh). simpl.
      repeat split.
      * by rewrite dict_get_set_ne.
      * intros c Hin.
        apply in_app_or in Hin as [Hin | [[= ? ?] | []]]; [auto | done].
      * intros Hin. apply in_app_or in Hin as [Hin | [E' | []]]; done.
    + rewrite (scrape_step_added N st w d data E Hg). simpl.
      repeat split.
      * by rewrite dict_get_set_ne.
      * intros c Hin.
        apply in_app_or in Hin as [Hin | [[= ? ?] | []]]; [auto | done].
      * intros Hin. apply in_app_or in Hin as [Hin | [E' | []]]; done.
Qed.

Lemma scrape_all_cached (fuel : nat) (limit : Z) (N : Net) (w : World)
  (r : ScrapeResult) (w' : World) (id : string) (c : Classification) :
  scrape_all fuel limit N w = Some (r, w') ->
  In (id, c) (r_outcomes r) -> c = Added \/ c = Updated ->
  exists md record,
    files w' !! article_path id = Some md
    /\ dict_get id (load_metadata w') = Some record
    /\ fr_hash record = get_article_hash md
    /\ usable_markdown md.
Proof.
  intros Hrun Hin Hc.
  apply scrape_all_returns in Hrun
    as [[_ ->] | (all & w1 & st & w2 & _ & _ & Hloop & -> & ->)];
    [done |].
  assert (Hinv : cached_invariant (st, w2)).
  { rewrite <- Hloop. apply scrape_loop_invariant.
    - intros s d. apply cached_invariant_step.
    - intros ? ? []. }
  exact (Hinv id c Hin Hc).
Qed.

Lemma scrape_all_unchanged (fuel : nat) (limit : Z) (N : Net) (w : World)
  (r : ScrapeResult) (w' : World) (id md : string)
  (record : FingerprintRecord) :
  (forall t, exists a, get_article N t id = Some a
     /\ clean_html_to_markdown (body a) (html_url a) = md) ->
  usable_markdown md ->
  dict_get id (load_metadata w) = Some record ->
  fr_hash record = get_article_hash md ->
  scrape_all fuel limit N w = Some (r, w') ->
  dict_get id (load_metadata w') = Some record
  /\ (forall c, In (id, c) (r_outcomes r) -> c = Unchanged)
  /\ ~ In (filename_of id) (r_new_articles r).
Proof.
  intros Hnet Hu Hget Hh Hrun.
  apply scrape_all_returns in Hrun
    as [[Hl ->] | (all & w1 & st & w2 & Hl & _ & Hloop & -> & ->)];
    apply fetch_articles_loop_world in Hl as (_ & Hm & _).
  - unfold load_metadata in *. rewrite Hm. simpl. repeat split; auto; done.
  - assert (Hinv : unchanged_invariant id record (st, w2)).
    { rewrite <- Hloop. apply scrape_loop_invariant.
      - intros s d. by apply (unchanged_invariant_step N id md).
      - unfold unchanged_invariant, load_metadata in *. simpl.
        rewrite Hm. repeat split; auto; done. }
    exact Hinv.
Qed.

(** One verdict for each descriptor, in order. *)
Lemma scrape_step_outcomes (N : Net) (s : RunState * World)
  (d : ArticleInfo) :
  map fst (outcomes (fst (scrape_step N s d)))
  = map fst (outcomes (fst s)) ++ [ai_id d].
Proof.
  destruct s as [st w].
  destruct (scrape_step_cases N st w d)
    as [E | [(data & record & E & Hg & Hh)
          | [(data & record & E & Hg & Hh) | (data & E & Hg)]]].
  - rewrite (scrape_step_failed N st w d E). simpl. by rewrite map_app.
  - rewrite (scrape_step_unchanged N st w d data record E Hg Hh). simpl.
    by rewrite map_app.
  - rewrite (scrape_step_updated N st w d data record E Hg Hh). simpl.
    by rewrite map_app.
  - rewrite (scrape_step_added N st w d data E Hg). simpl.
    by rewrite map_app.
Qed.

Lemma scrape_loop_outcomes (N : Net) (l : list ArticleInfo) :
  forall s, map fst (outcomes (fst (scrape_loop N l s)))
            = map fst (outcomes (fst s)) ++ map ai_id l.
Proof.
  induction l as [|d l IH]; intros s.
  - simpl. by rewrite app_nil_r.
  - rewrite scrape_loop_cons, IH, scrape_step_outcomes.
    by rewrite <- app_assoc.
Qed.

Lemma scrape_all_outcomes (fuel : nat) (limit : Z) (N : Net) (w : World)
  (r : ScrapeResult) (w' : World) :
  scrape_all fuel limit N w = Some (r, w') ->
  exists all_articles w1,
    fetch_articles_list fuel N w = Some (all_articles, w1)
    /\ map fst (r_outcomes r) = map ai_id (py_slice_to all_articles limit).
Proof.
  intros Hrun.
  apply scrape_all_returns in Hrun
    as [[Hl ->] | (all & w1 & st & w2 & Hl & _ & Hloop & -> & _)].
  - exists [], w'. split; [done |]. unfold py_slice_to.
    by destruct (limit <? 0)%Z; rewrite take_nil.
  - exists all, w1. split; [done |].
    pose proof (scrape_loop_outcomes N (py_slice_to all limit)
                  (init_run (load_metadata w1), w1)) as Ho.
    by rewrite Hloop in Ho.
Qed.

(** C2.  When a run of [scrape_all] gives an id the verdict Added or
    Updated, it leaves the markdown in the cached file of the id and the
    fingerprint of that markdown in the saved store.  If in a second run,
    started with the files and the store that the first one left, every
    fetch of this id yields content that normalizes to that same markdown,
    then every verdict of the second run on the id is Unchanged, there is
    such a verdict for every processed descriptor of the id, the file name
    of the id is not in the list that the second run returns, and the record
    of the id in the store is the same after the second run. *)
Theorem scrape_all_second_run_unchanged
  (fuel1 : nat) (limit1 : Z) (N1 : Net) (w0 : World) (r1 : ScrapeResult)
  (w1 : World) (id : string) (c : Classification)
  (fuel2 : nat) (limit2 : Z) (N2 : Net) (w1' : World) (r2 : ScrapeResult)
  (w2 : World) :
  scrape_all fuel1 limit1 N1 w0 = Some (r1, w1) ->
  In (id, c) (r_outcomes r1) ->
  c = Added \/ c = Updated ->
  files w1' = files w1 ->
  metadata_file w1' = metadata_file w1 ->
  (forall t, exists a, get_article N2 t id = Some a
     /\ files w1 !! article_path id
        = Some (clean_html_to_markdown (body a) (html_url a))) ->
  scrape_all fuel2 limit2 N2 w1' = Some (r2, w2) ->
  (exists md record,
     files w1 !! article_path id = Some md
     /\ dict_get id (load_metadata w1) = Some record
     /\ fr_hash record = get_article_hash md
     /\ dict_get id (load_metadata w2) = Some record)
  /\ (forall c2, In (id, c2) (r_outcomes r2) -> c2 = Unchanged)
  /\ ~ In (filename_of id) (r_new_articles r2)
  /\ (forall all_articles wl d,
        fetch_articles_list fuel2 N2 w1' = Some (all_articles, wl) ->
        In d (py_slice_to all_articles limit2) -> ai_id d = id ->
        In (id, Unchanged) (r_outcomes r2)).
Proof.
  intros Hrun1 Hin Hc Hfiles Hmeta Hnet Hrun2.
  destruct (scrape_all_cached _ _ _ _ _ _ _ _ Hrun1 Hin Hc)
    as (md & record & Hfile & Hget & Hh & Hu).
  assert (Hnet' : forall t, exists a, get_article N2 t id = Some a
            /\ clean_html_to_markdown (body a) (html_url a) = md).
  { intros t. destruct (Hnet t) as (a & Ha & Hf). exists a. split; [done |].
    congruence. }
  assert (Hget' : dict_get id (load_metadata w1') = Some record).
  { unfold load_metadata in *. by rewrite Hmeta. }
  destruct (scrape_all_unchanged _ _ _ _ _ _ _ _ _ Hnet' Hu Hget' Hh Hrun2)
    as (Hget2 & Hout & Hnew).
  split; [by exists md, record |]. split; [done |]. split; [done |].
  intros all wl d Hl Hd Hid.
  destruct (scrape_all_outcomes _ _ _ _ _ _ Hrun2) as (all' & wl' & Hl' & Ho).
  rewrite Hl in Hl'. injection Hl' as <- <-.
  assert (Hk : In id (map fst (r_outcomes r2))).
  { rewrite Ho, <- Hid. by apply in_map. }
  apply in_map_iff in Hk as ([id' c2] & Hfst & Hk). simpl in Hfst. subst id'.
  by rewrite <- (Hout c2 Hk).
Qed.

End TwoRuns.

(** ** The delta uploader *)

(** One turn of the loop.  When it returns, it has counted the file once,
    left the local files alone and added at most two POST requests, the
    register request among them when the file can be read.  It raises only
    on a register reply that is not an object, after the register
    request. *)
Lemma upload_step_effect (N : Net) (self : VectorStoreManager)
  (u f : nat) (w : World) (p : string) :
  (exists u' f' w' rs,
     upload_step N self (u, f, w) p = Returns (u', f', w')
     /\ u' + f' = u + f + 1
     /\ u <= u' /\ f <= f'
     /\ files w' = files w
     /\ metadata_file w' = metadata_file w
     /\ requests w' = requests w ++ rs
     /\ length rs <= 2
     /\ (forall q, In q rs -> http_method q = POST)
     /\ (forall content, files w !! p = Some content ->
           In (PostFile (os_path_basename p) content) rs))
  \/ (exists content,
        files w !! p = Some content
        /\ post_file N (tick w) (os_path_basename p) content
           = Some FileNotObject
        /\ upload_step N self (u, f, w) p
           = Raises (send (PostFile (os_path_basename p) content) w)).
Proof.
  unfold upload_step, upload_file, add_file_to_vector_store.
  destruct (files w !! p) as [content|] eqn:Ef.
  - destruct (post_file N (tick w) (os_path_basename p) content)
      as [[file_id|]|] eqn:Er.
    + left.
      exists (if post_vector_store_file N
                   (tick (send (PostFile (os_path_basename p) content) w))
                   (vector_store_id self) file_id then u + 1 else u),
             (if post_vector_store_file N
                   (tick (send (PostFile (os_path_basename p) content) w))
                   (vector_store_id self) file_id then f else f + 1),
             (send (PostVectorStoreFile (vector_store_id self) file_id)
                (send (PostFile (os_path_basename p) content) w)),
             [PostFile (os_path_basename p) content;
              PostVectorStoreFile (vector_store_id self) file_id].
      destruct (post_vector_store_file N _ (vector_store_id self) file_id);
        (split; [reflexivity |]); simpl;
        rewrite <- app_assoc; repeat split; try lia.
      * by intros q [<- | [<- | []]].
      * intros c [= <-]; by left.
      * by intros q [<- | [<- | []]].
      * intros c [= <-]; by left.
    + right. by exists content.
    + left.
      exists u, (f + 1), (send (PostFile (os_path_basename p) content) w),
        [PostFile (os_path_basename p) content].
      split; [reflexivity |]. simpl. repeat split; try lia.
      * by intros q [<- | []].
      * intros c [= <-]. by left.
  - left. exists u, (f + 1), w, []. split; [reflexivity |]. simpl.
    rewrite app_nil_r. repeat split; try lia; done.
Qed.

Lemma upload_loop_cons (N : Net) (self : VectorStoreManager) (p : string)
  (paths : list string) (s : nat * nat * World) :
  upload_loop N self (p :: paths) s
  = match upload_step N self s p with
    | Returns s' => upload_loop N self paths s'
    | Raises w => Raises w
    end.
Proof. done. Qed.

Lemma upload_loop_app (N : Net) (self : VectorStoreManager)
  (l1 l2 : list string) (s : nat * nat * World) :
  upload_loop N self (l1 ++ l2) s
  = match upload_loop N self l1 s with
    | Returns s' => upload_loop N self l2 s'
    | Raises w => Raises w
    end.
Proof.
  revert s. induction l1 as [|p l1 IH]; intros s; [done |].
  change ((p :: l1) ++ l2) with (p :: (l1 ++ l2)).
  rewrite !upload_loop_cons. destruct (upload_step N self s p); [apply IH | done].
Qed.

(** The whole loop, whether it returns or raises. *)
Lemma upload_loop_effect (N : Net) (self : VectorStoreManager)
  (paths : list string) :
  forall (u f : nat) (w : World),
  (exists u' f' w' rs,
     upload_loop N self paths (u, f, w) = Returns (u', f', w')
     /\ u' + f' = u + f + length paths
     /\ u <= u' /\ f <= f'
     /\ files w' = files w
     /\ metadata_file w' = metadata_file w
     /\ requests w' = requests w ++ rs
     /\ length rs <= 2 * length paths
     /\ (forall q, In q rs -> http_method q = POST)
     /\ (forall p content, In p paths -> files w !! p = Some content ->
           In (PostFile (os_path_basename p) content) rs))
  \/ (exists w' rs,
        upload_loop N self paths (u, f, w) = Raises w'
        /\ files w' = files w
        /\ metadata_file w' = metadata_file w
        /\ requests w' = requests w ++ rs
        /\ length rs <= 2 * length paths
        /\ (forall q, In q rs -> http_method q = POST)
        /\ exists t name content,
             post_file N t name content = Some FileNotObject).
Proof.
  induction paths as [|p paths IH]; intros u f w.
  - left. exists u, f, w, []. simpl. rewrite app_nil_r.
    repeat split; try lia; done.
  - rewrite upload_loop_cons.
    destruct (upload_step_effect N self u f w p)
      as [(u1 & f1 & w1 & rs1 & -> & Hc1 & Hu1 & Hf1 & Hfiles1 & Hmeta1
           & Hr1 & Hl1 & Hm1 & Hp1)
         | (content & Hfile & Hreg & ->)].
    + destruct (IH u1 f1 w1)
        as [(u2 & f2 & w2 & rs2 & E2 & Hc2 & Hu2 & Hf2 & Hfiles2 & Hmeta2
             & Hr2 & Hl2 & Hm2 & Hp2)
           | (w2 & rs2 & E2 & Hfiles2 & Hmeta2 & Hr2 & Hl2 & Hm2 & Hbad)].
      * left. exists u2, f2, w2, (rs1 ++ rs2). rewrite E2. simpl length.
        split; [reflexivity |]. split; [lia |]. split; [lia |].
        split; [lia |]. split; [congruence |]. split; [congruence |].
        split; [rewrite Hr2, Hr1; by rewrite app_assoc |].
        split; [rewrite length_app; lia |].
        split; [intros q Hq; apply in_app_or in Hq as [Hq | Hq]; auto |].
        intros q content [<- | Hin] Hq; apply in_or_app.
        -- left. by apply Hp1.
        -- right. apply (Hp2 q content Hin). by rewrite Hfiles1.
      * right. exists w2, (rs1 ++ rs2). rewrite E2. simpl length.
        split; [reflexivity |]. split; [congruence |]. split; [congruence |].
        split; [rewrite Hr2, Hr1; by rewrite app_assoc |].
        split; [rewrite length_app; lia |].
        split; [intros q Hq; apply in_app_or in Hq as [Hq | Hq]; auto |].
        exact Hbad.
    + right. exists (send (PostFile (os_path_basename p) content) w),
        [PostFile (os_path_basename p) content].
      split; [reflexivity |]. split; [reflexivity |]. split; [reflexivity |].
      split; [reflexivity |]. split; [simpl; lia |].
      split; [by intros q [<- | []] |].
      by exists (tick w), (os_path_basename p), content.
Qed.

Lemma upload_loop_returns (N : Net) (self : VectorStoreManager)
  (paths : list string) (u f : nat) (w : World) :
  registers_objects N ->
  exists u' f' w', upload_loop N self paths (u, f, w) = Returns (u', f', w').
Proof.
  intros Hobj.
  destruct (upload_loop_effect N self paths u f w)
    as [(u' & f' & w' & rs & E & _)
       | (w' & rs & _ & _ & _ & _ & _ & _ & t & name & content & Hbad)].
  - by exists u', f', w'.
  - by destruct (Hobj t name content).
Qed.

Lemma upload_delta_files_loop (N : Net) (self : VectorStoreManager)
  (new_filenames : list string) (articles_dir : string) (w : World) :
  upload_delta_files N self new_filenames articles_dir w
  = match upload_loop N self
            (map (os_path_join articles_dir) new_filenames) (0, 0, w) with
    | Returns (u, f, w') =>
        Returns ({| uploaded := u; upload_failed := f;
                    total := length new_filenames |}, w')
    | Raises w' => Raises w'
    end.
Proof.
  unfold upload_delta_files. destruct new_filenames as [|x l]; [done |].
  destruct (upload_loop N self _ (0, 0, w)) as [[[u f] w']|w']; [| done].
  by rewrite length_map.
Qed.



(** ** The pipeline *)

Section Pipeline.
Context `{Libs}.

Lemma fetch_articles_list_requests (fuel : nat) (N : Net) (w : World)
  (result : list ArticleInfo) (w' : World) :
  fetch_articles_list fuel N w = Some (result, w') ->
  exists rs, requests w' = requests w ++ GetArticlesPage 1 100 :: rs
             /\ forallb is_scrape_request rs = true.
Proof.
  unfold fetch_articles_list. destruct fuel as [|fuel]; simpl; [done |].
  assert (Hstop : forall res,
    Some (res, send (GetArticlesPage 1 100) w) = Some (result, w') ->
    exists rs, requests w' = requests w ++ GetArticlesPage 1 100 :: rs
               /\ forallb is_scrape_request rs = true).
  { intros res [= _ <-]. by exists []. }
  destruct (get_articles_page N (tick w) 1 100) as [|[|x l] [|]]; eauto.
  intros E. apply fetch_articles_loop_world in E as (_ & _ & rs & Hr & Hall).
  exists rs. split; [| done]. rewrite Hr. simpl. by rewrite <- app_assoc.
Qed.

Lemma scrape_step_requests (N : Net) (s : RunState * World)
  (d : ArticleInfo) :
  requests (snd (scrape_step N s d))
  = requests (snd s) ++ [GetArticle (ai_id d)].
Proof.
  destruct s as [st w].
  destruct (scrape_step_cases N st w d)
    as [E | [(data & record & E & Hg & Hh)
          | [(data & record & E & Hg & Hh) | (data & E & Hg)]]].
  - by rewrite (scrape_step_failed N st w d E).
  - by rewrite (scrape_step_unchanged N st w d data record E Hg Hh).
  - by rewrite (scrape_step_updated N st w d data record E Hg Hh).
  - by rewrite (scrape_step_added N st w d data E Hg).
Qed.

Lemma scrape_loop_requests (N : Net) (l : list ArticleInfo) :
  forall s, requests (snd (scrape_loop N l s))
            = requests (snd s) ++ map (fun d => GetArticle (ai_id d)) l.
Proof.
  induction l as [|d l IH]; intros s; simpl map.
  - by rewrite app_nil_r.
  - rewrite scrape_loop_cons, IH, scrape_step_requests.
    by rewrite <- app_assoc.
Qed.

(** A run of [scrape_all] asks for the first catalog page, and sends
    nothing but catalog and article requests. *)
Lemma scrape_all_requests (fuel : nat) (limit : Z) (N : Net) (w : World)
  (r : ScrapeResult) (w' : World) :
  scrape_all fuel limit N w = Some (r, w') ->
  exists rs, requests w' = requests w ++ GetArticlesPage 1 100 :: rs
             /\ forallb is_scrape_request rs = true.
Proof.
  intros Hrun.
  apply scrape_all_returns in Hrun
    as [[Hl _] | (all & w1 & st & w2 & Hl & _ & Hloop & _ & ->)];
    apply fetch_articles_list_requests in Hl as (rs & Hr & Hall).
  - by exists rs.
  - pose proof (scrape_loop_requests N (py_slice_to all limit)
                  (init_run (load_metadata w1), w1)) as Hq.
    rewrite Hloop in Hq. simpl in Hq.
    exists (rs ++ map (fun d => GetArticle (ai_id d))
                    (py_slice_to all limit)).
    split.
    + simpl. rewrite Hq, Hr. by rewrite <- app_assoc.
    + rewrite forallb_app, Hall. simpl.
      apply forallb_forall. intros q Hin.
      apply in_map_iff in Hin as (d & <- & _). done.
Qed.

Lemma VectorStoreManager_init_no_key (env : OsEnv) :
  OPENAI_API_KEY env = None -> VectorStoreManager_init env = None.
Proof. unfold VectorStoreManager_init. by intros ->. Qed.

(** A run without a fault is [scrape_all]. *)
Lemma scrape_all_run_no_fault (fuel : nat) (limit : Z) (N : Net)
  (w : World) :
  scrape_all_run NoFault fuel limit N w
  = option_map Returns (scrape_all fuel limit N w).
Proof.
  unfold scrape_all_run, scrape_all.
  by destruct (fetch_articles_list fuel N w) as [[[|d l] w1]|].
Qed.

(** A run that returns, with or without a fault in its input, is a run of
    [scrape_all]. *)
Lemma scrape_all_run_returns (fault : ScrapeFault) (fuel : nat) (limit : Z)
  (N : Net) (w : World) (r : ScrapeResult) (w1 : World) :
  scrape_all_run fault fuel limit N w = Some (Returns (r, w1)) ->
  scrape_all fuel limit N w = Some (r, w1).
Proof.
  unfold scrape_all_run.
  destruct (fetch_articles_list fuel N w) as [[[|d l] wl]|] eqn:Hl;
    [| | done].
  - destruct (scrape_all fuel limit N w) as [[r' w']|]; [| done].
    by intros [= <- <-].
  - destruct fault as [| |k fetched].
    + destruct (scrape_all fuel limit N w) as [[r' w']|]; [| done].
      by intros [= <- <-].
    + destruct (metadata_file wl); [done |].
      destruct (scrape_all fuel limit N w) as [[r' w']|]; [| done].
      by intros [= <- <-].
    + destruct (py_slice_to (d :: l) limit !! k).
      * by destruct (scrape_loop N _ _).
      * destruct (scrape_all fuel limit N w) as [[r' w']|]; [| done].
        by intros [= <- <-].
Qed.

(** Whatever way the scrape ends, it has asked for the first catalog page
    and has sent nothing but catalog and article requests. *)
Lemma scrape_all_run_requests (fault : ScrapeFault) (fuel : nat) (limit : Z)
  (N : Net) (w : World) (scraped : Outcome (ScrapeResult * World)) :
  scrape_all_run fault fuel limit N w = Some scraped ->
  exists rs, requests (outcome_world snd scraped)
             = requests w ++ GetArticlesPage 1 100 :: rs
             /\ forallb is_scrape_request rs = true.
Proof.
  assert (Hret : forall x,
    option_map Returns (scrape_all fuel limit N w) = Some x ->
    exists rs, requests (outcome_world snd x)
               = requests w ++ GetArticlesPage 1 100 :: rs
               /\ forallb is_scrape_request rs = true).
  { intros x. destruct (scrape_all fuel limit N w) as [[r w1]|] eqn:E;
      [| done].
    intros [= <-]. simpl. by apply (scrape_all_requests _ _ _ _ _ _ E). }
  unfold scrape_all_run.
  destruct (fetch_articles_list fuel N w) as [[[|d l] wl]|] eqn:Hl;
    [auto | | done].
  destruct fault as [| |k fetched]; [auto | |].
  - destruct (metadata_file wl); [| auto].
    intros [= <-]. simpl. by apply (fetch_articles_list_requests _ _ _ _ _ Hl).
  - destruct (py_slice_to (d :: l) limit !! k) as [bad|]; [| auto].
    pose proof (scrape_loop_requests N (take k (py_slice_to (d :: l) limit))
                  (init_run (load_metadata wl), wl)) as Hq.
    destruct (scrape_loop N _ _) as [st w2]. simpl in Hq.
    apply fetch_articles_list_requests in Hl as (rs & Hr & Hall).
    intros [= <-]. simpl.
    exists (rs ++ map (fun d => GetArticle (ai_id d))
                    (take k (py_slice_to (d :: l) limit))
               ++ (if fetched then [GetArticle (ai_id bad)] else [])).
    split.
    + destruct fetched; simpl; rewrite Hq, Hr;
        rewrite <- ?app_assoc; simpl; by rewrite ?app_nil_r, <- ?app_assoc.
    + rewrite !forallb_app, Hall. simpl.
      assert (forallb is_scrape_request
                (map (fun d => GetArticle (ai_id d))
                   (take k (py_slice_to (d :: l) limit))) = true) as ->.
      { apply forallb_forall. intros q Hin.
        apply in_map_iff in Hin as (x & <- & _). done. }
      by destruct fetched.
Qed.

(** C3 (amended).  When the key is missing, [main] returns the exit code 1
    exactly when the scrape has returned at least one file name, and 0
    otherwise (an empty list, or a scrape that raised).  The scrape comes
    first: the world that [main] leaves is the one that the scrape left,
    in which the first catalog page has been requested and every request is
    a catalog or article request, none a request of the uploader. *)
Theorem main_missing_key (fault : ScrapeFault) (fuel : nat) (N : Net)
  (env : OsEnv) (w : World) (code : Z) (w' : World) :
  OPENAI_API_KEY env = None ->
  main fault fuel N env w = Some (code, w') ->
  exists scraped,
    scrape_all_run fault fuel 50 N w = Some scraped
    /\ w' = outcome_world snd scraped
    /\ (code = 1%Z \/ code = 0%Z)
    /\ (code = 1%Z <->
        exists r w1, scraped = Returns (r, w1) /\ r_new_articles r <> [])
    /\ (exists rs, requests w' = requests w ++ GetArticlesPage 1 100 :: rs
                   /\ forallb is_scrape_request rs = true).
Proof.
  intros Hkey. unfold main.
  destruct (scrape_all_run fault fuel 50 N w) as [scraped|] eqn:Hrun;
    [| done].
  rewrite (VectorStoreManager_init_no_key env Hkey).
  pose proof (scrape_all_run_requests _ _ _ _ _ _ Hrun) as Hreq.
  intros Hmain. exists scraped. split; [done |].
  destruct scraped as [[r w1]|w1]; simpl in *.
  - destruct (r_new_articles r) as [|x l] eqn:Hnew;
      injection Hmain as <- <-.
    + repeat split; auto; try done. by intros (r' & w1' & [= <- <-] & ?).
    + repeat split; auto. intros _. exists r, w1. by rewrite Hnew.
  - injection Hmain as <- <-. repeat split; auto; try done.
    by intros (r' & w1' & ? & _).
Qed.

End Pipeline.

(** ** The metadata file on disk *)

Lemma string_take_drop (n : nat) (s : string) :
  string_take n s +:+ string_drop n s = s.
Proof.
  revert s. induction n as [|n IH]; intros [|c s]; try done.
  change (String c (string_take n s +:+ string_drop n s) = String c s).
  by rewrite IH.
Qed.

(** Every flush leaves on disk what was written before it followed by a
    prefix of the text still to write, and the last one leaves it all. *)
Lemma flush_schedule_prefix (sizes : list nat) :
  forall written rest x,
    In x (flush_schedule written rest sizes) ->
    exists p q, x = written +:+ p /\ rest = p +:+ q.
Proof.
  induction sizes as [|n sizes IH]; intros written rest x; simpl.
  - intros [<- | []]. exists rest, EmptyString. by rewrite append_empty_r.
  - intros [<- | Hin].
    + exists (string_take n rest), (string_drop n rest).
      by rewrite string_take_drop.
    + apply IH in Hin as (p & q & -> & Hrest).
      exists (string_take n rest +:+ p), q. split.
      * by rewrite append_assoc.
      * by rewrite append_assoc, <- Hrest, string_take_drop.
Qed.

Lemma flush_schedule_last (sizes : list nat) :
  forall written rest,
    last (flush_schedule written rest sizes) = Some (written +:+ rest).
Proof.
  induction sizes as [|n sizes IH]; intros written rest; simpl; [done |].
  destruct (flush_schedule _ _ sizes) eqn:E.
  - by destruct sizes.
  - rewrite last_cons_cons, <- E, IH.
    by rewrite append_assoc, string_take_drop.
Qed.

Lemma json_object_not_empty (level : nat) (items : list (string * string)) :
  json_object level items <> EmptyString.
Proof. by destruct items. Qed.

Section Disk.
Context `{Libs}.

(** C8 (amended).  Over a run of [scrape_all] that returns, the metadata
    file on disk starts with the old text and ends with the text of the
    store that the run leaves; every state in between is the old text or a
    prefix of the new text.  Whenever the run reaches [save_metadata], the
    first state after the old text is the empty file, which is neither the
    old text nor the new one. *)
Theorem scrape_all_on_disk_states (fuel : nat) (limit : Z) (N : Net)
  (w : World) (sizes : list nat) (r : ScrapeResult) (w' : World) :
  scrape_all fuel limit N w = Some (r, w') ->
  exists history,
    scrape_all_on_disk fuel limit N w sizes = Some history
    /\ head history = Some (option_map json_dumps (metadata_file w))
    /\ last history = Some (option_map json_dumps (metadata_file w'))
    /\ (forall h, In h history ->
          h = option_map json_dumps (metadata_file w)
          \/ exists m p q, metadata_file w' = Some m
               /\ h = Some p /\ json_dumps m = p +:+ q)
    /\ (history = [option_map json_dumps (metadata_file w)]
        \/ (history !! 1 = Some (Some EmptyString)
            /\ Some EmptyString <> option_map json_dumps (metadata_file w)
            /\ Some EmptyString
               <> option_map json_dumps (metadata_file w'))).
Proof.
  intros Hrun. unfold scrape_all_on_disk.
  apply scrape_all_returns in Hrun
    as [[Hl _] | (all & w1 & st & w2 & Hl & Hne & Hloop & _ & ->)];
    rewrite Hl.
  - apply fetch_articles_loop_world in Hl as (_ & Hm & _).
    eexists. split; [reflexivity |]. rewrite Hm. simpl.
    repeat split; auto. intros h [<- | []]. by left.
  - destruct all as [|d l]; [done |]. rewrite Hloop.
    eexists. split; [reflexivity |]. simpl metadata_file.
    unfold save_metadata_on_disk. repeat split.
    + rewrite !last_cons, fmap_last, flush_schedule_last. done.
    + intros h [<- | [<- | Hin]].
      * by left.
      * right. by exists (metadata st), EmptyString, (json_dumps (metadata st)).
      * right. apply in_map_iff in Hin as (x & <- & Hin).
        apply flush_schedule_prefix in Hin as (p & q & -> & Hq).
        by exists (metadata st), p, q.
    + right. repeat split.
      * destruct (metadata_file w) as [m|]; simpl; [| done].
        intros [= E]. symmetry in E. by apply json_object_not_empty in E.
      * intros [= E]. symmetry in E. by apply json_object_not_empty in E.
Qed.

End Disk.

(** * The statements on concrete runs *)

(** The store knows article 1 with the content it still has, article 2 is
    new: only the second file name is returned. *)
Lemma scrape_all_delta_set_witness :
  match @scrape_all example_libs 5 30 (net_catalog [article_A; article_B])
          (world_with_store (store_A foo_markdown)) with
  | Some (r, _) =>
      r_new_articles r = [filename_of "2"]
      /\ length (r_new_articles r) = added (r_stats r) + updated (r_stats r)
      /\ ~ In (filename_of "1") (r_new_articles r)
  | None => False
  end.
Proof.
  destruct (@scrape_all example_libs 5 30 (net_catalog [article_A; article_B])
              (world_with_store (store_A foo_markdown)))
    as [[r w']|] eqn:E.
  - destruct (@scrape_all_delta_set example_libs _ _ _ _ _ _ E)
      as (Hn & Hl & _ & _ & _ & Hnd).
    vm_compute in E. injection E as <- _.
    split; [reflexivity |]. split; [exact Hl |].
    apply (Hnd ltac:(apply (bool_decide_unpack _); vm_compute; exact I)
             "1" Unchanged); [left; reflexivity | left; reflexivity].
  - vm_compute in E. discriminate.
Defined.

(** The catalog lists article 1 twice: it is Added, then Unchanged, and its
    file name is in the list that the run returns. *)
Lemma scrape_all_delta_set_counterexample :
  ~ (forall (L : Libs) (fuel : nat) (limit : Z) (N : Net) (w : World)
       (r : ScrapeResult) (w' : World),
       @scrape_all L fuel limit N w = Some (r, w') ->
       (forall f, In f (r_new_articles r) <->
          exists id c, In (id, c) (r_outcomes r)
                       /\ (c = Added \/ c = Updated) /\ f = filename_of id)
       /\ length (r_new_articles r) = added (r_stats r) + updated (r_stats r)
       /\ (forall id c, In (id, c) (r_outcomes r) ->
             c = Unchanged \/ c = Failed ->
             ~ In (filename_of id) (r_new_articles r))).
Proof.
  intros Hclaim.
  destruct (@scrape_all example_libs 5 30 (net_catalog [article_A; article_A])
              empty_world) as [[r w']|] eqn:E.
  - destruct (Hclaim example_libs _ _ _ _ _ _ E) as (_ & _ & Hno).
    vm_compute in E. injection E as <- _.
    apply (Hno "1" Unchanged).
    + right. left. reflexivity.
    + by left.
    + left. reflexivity.
  - vm_compute in E. discriminate.
Qed.

(** Article 1 is added by a first run and reads the same in a second
    run. *)
Lemma scrape_all_second_run_unchanged_witness :
  match @scrape_all example_libs 5 30 (net_catalog [article_A]) empty_world
  with
  | Some (_, w1) =>
      match @scrape_all example_libs 5 30 (net_catalog [article_A]) w1 with
      | Some (r2, _) =>
          (forall c2, In ("1", c2) (r_outcomes r2) -> c2 = Unchanged)
          /\ ~ In (filename_of "1") (r_new_articles r2)
      | None => False
      end
  | None => False
  end.
Proof.
  destruct (@scrape_all example_libs 5 30 (net_catalog [article_A])
              empty_world) as [[r1 w1]|] eqn:E1.
  - destruct (@scrape_all example_libs 5 30 (net_catalog [article_A]) w1)
      as [[r2 w2]|] eqn:E2.
    + destruct (@scrape_all_second_run_unchanged example_libs
                  5 30 (net_catalog [article_A]) empty_world r1 w1
                  "1" Added 5 30 (net_catalog [article_A]) w1 r2 w2)
        as (_ & Hout & Hnew & _); [exact E1 | | by left | done | done |
                                   | exact E2 | by split].
      * vm_compute in E1. injection E1 as <- _. left. reflexivity.
      * intros t. exists (content_of "foo"). split; [reflexivity |].
        vm_compute in E1. injection E1 as _ <-. vm_compute. reflexivity.
    + vm_compute in E1. injection E1 as _ <-.
      vm_compute in E2. discriminate.
  - vm_compute in E1. discriminate.
Defined.

(** Without the key and with one new article, [main] returns 1 after the
    catalog and the article were requested. *)
Lemma main_missing_key_witness :
  match @main example_libs NoFault 5 (net_catalog [article_A]) env_no_key
          empty_world with
  | Some (code, w') =>
      code = 1%Z
      /\ exists rs, requests w'
                    = requests empty_world ++ GetArticlesPage 1 100 :: rs
  | None => False
  end.
Proof.
  destruct (@main example_libs NoFault 5 (net_catalog [article_A]) env_no_key
              empty_world) as [[code w']|] eqn:E.
  - destruct (@main_missing_key example_libs NoFault 5
                (net_catalog [article_A]) env_no_key empty_world code w'
                eq_refl E)
      as (scraped & Hrun & _ & _ & Hiff & (rs & Hreq & _)).
    split.
    + apply Hiff. vm_compute in Hrun. injection Hrun as <-.
      eexists _, _. split; [reflexivity | discriminate].
    + by exists rs.
  - vm_compute in E. discriminate.
Defined.

(** With the key, a register reply that is an array ends the run with the
    exit code 1 as well. *)
Lemma main_register_array_exit_code :
  exists w', @main example_libs NoFault 5 net_register_array env_key
               empty_world = Some (1%Z, w').
Proof. eexists. vm_compute. reflexivity. Qed.

(** Against the claim: on the run without the key the catalog and the
    article were requested before the abort, and on the run with the key
    above the exit code is 1 although the key is there. *)
Lemma main_missing_key_counterexample :
  ~ (forall (L : Libs) (fault : ScrapeFault) (fuel : nat) (N : Net)
       (env : OsEnv) (w : World) (code : Z) (w' : World),
       OPENAI_API_KEY env = None ->
       @main L fault fuel N env w = Some (code, w') ->
       code = 1%Z /\ requests w' = requests w)
  /\ ~ (forall (L : Libs) (fault : ScrapeFault) (fuel : nat) (N : Net)
          (env : OsEnv) (w : World) (w' : World),
          @main L fault fuel N env w = Some (1%Z, w') ->
          OPENAI_API_KEY env = None).
Proof.
  split; intros Hclaim.
  - destruct (@main example_libs NoFault 5 (net_catalog [article_A])
                env_no_key empty_world) as [[code w']|] eqn:E.
    + destruct (Hclaim example_libs NoFault 5 (net_catalog [article_A])
                  env_no_key empty_world code w' eq_refl E) as [_ Hreq].
      vm_compute in E. injection E as _ <-. vm_compute in Hreq.
      discriminate.
    + vm_compute in E. discriminate.
  - destruct main_register_array_exit_code as [w' E].
    apply Hclaim in E. discriminate.
Qed.

(** Without the key, a scrape that raises on its first descriptor lets
    [main] end with the exit code 0. *)
Lemma main_scrape_raises_exit_code :
  exists w', @main example_libs (BadDescriptor 0 false) 5
               (net_catalog [article_A]) env_no_key empty_world
             = Some (0%Z, w').
Proof. eexists. vm_compute. reflexivity. Qed.

(** The item endpoint is down. *)
Lemma scrape_all_failed_article_witness :
  exists st' w',
    @scrape_step example_libs (net_content [article_A; article_B] EmptyString)
      (init_run [], empty_world) article_A = (st', w')
    /\ outcomes st' = [("1", Failed)]
    /\ new_articles st' = []
    /\ files w' = files empty_world.
Proof.
  destruct (@scrape_all_failed_article example_libs
              (net_content [article_A; article_B] EmptyString) [] article_A
              [article_B] (init_run [], empty_world) (init_run [])
              empty_world eq_refl (or_introl eq_refl))
    as (st' & w' & Hs & Ho & _ & _ & _ & _ & _ & Hf & _ & Hn & _).
  exists st', w'. repeat split; assumption.
Defined.

(** The store knows article 1 with another fingerprint. *)
Lemma scrape_all_updated_article_witness :
  exists st' w',
    @scrape_step example_libs (net_catalog [article_A])
      (init_run (store_A "old"), empty_world) article_A = (st', w')
    /\ outcomes st' = [("1", Updated)]
    /\ dict_keys (metadata st') = ["1"]
    /\ new_articles st' = [filename_of "1"].
Proof.
  edestruct (@scrape_all_updated_article example_libs
               (net_catalog [article_A]) [] article_A []
               (init_run (store_A "old"), empty_world)
               (init_run (store_A "old")) empty_world)
    as (st' & w' & Hs & Ho & _ & _ & _ & _ & _ & Hk & Hn & _).
  - reflexivity.
  - reflexivity.
  - reflexivity.
  - vm_compute. discriminate.
  - exists st', w'. repeat split; assumption.
Defined.



(** Three pages, the third one without a next page. *)
Lemma fetch_articles_list_pages_witness :
  exists w',
    fetch_articles_list 5 net_three_pages empty_world
    = Some ([article_A; article_B; {| ai_id := "3"; ai_title := "C" |}], w').
Proof.
  destruct (fetch_articles_list_pages net_three_pages empty_world 2 5)
    as (w' & E & _).
  - intros p Hp. assert (p = 1 \/ p = 2) as [-> | ->] by lia; reflexivity.
  - reflexivity.
  - lia.
  - exists w'. exact E.
Defined.

(** A run over an empty store file: the file is first emptied. *)
Lemma scrape_all_on_disk_states_witness :
  match @scrape_all example_libs 5 30 (net_catalog [article_A])
          (world_with_store []) with
  | Some (_, w') =>
      exists history,
        @scrape_all_on_disk example_libs 5 30 (net_catalog [article_A])
          (world_with_store []) [3] = Some history
        /\ head history = Some (Some "{}")
        /\ last history = Some (option_map json_dumps (metadata_file w'))
  | None => False
  end.
Proof.
  destruct (@scrape_all example_libs 5 30 (net_catalog [article_A])
              (world_with_store [])) as [[r w']|] eqn:E.
  - destruct (@scrape_all_on_disk_states example_libs _ _ _ _ [3] _ _ E)
      as (history & Hh & Hhead & Hlast & _).
    exists history. repeat split; assumption.
  - vm_compute in E. discriminate.
Defined.

(** The state of that run right after [open(..., 'w')] is neither the old
    text nor the new one. *)
Lemma scrape_all_on_disk_states_counterexample :
  ~ (forall (L : Libs) (fuel : nat) (limit : Z) (N : Net) (w : World)
       (sizes : list nat) (r : ScrapeResult) (w' : World)
       (history : list (option string)),
       @scrape_all L fuel limit N w = Some (r, w') ->
       @scrape_all_on_disk L fuel limit N w sizes = Some history ->
       forall h, In h history ->
         h = option_map json_dumps (metadata_file w)
         \/ h = option_map json_dumps (metadata_file w')).
Proof.
  intros Hclaim.
  destruct (@scrape_all example_libs 5 30 (net_catalog [article_A])
              (world_with_store [])) as [[r w']|] eqn:E.
  - destruct (@scrape_all_on_disk example_libs 5 30 (net_catalog [article_A])
                (world_with_store []) [3]) as [history|] eqn:Eh.
    + pose proof (Hclaim example_libs _ _ _ _ _ _ _ _ E Eh
                    (Some EmptyString)) as Hh.
      vm_compute in Eh. injection Eh as <-.
      vm_compute in E. injection E as _ <-.
      destruct Hh as [Hh | Hh].
      * right. left. reflexivity.
      * vm_compute in Hh. discriminate.
      * vm_compute in Hh. discriminate.
    + vm_compute in Eh. discriminate.
  - vm_compute in E. discriminate.
Qed.

(** The store knows article 1, the catalog lists article 2 only. *)
Lemma scrape_all_keeps_records_witness :
  match @scrape_all example_libs 5 30 (net_catalog [article_B])
          (world_with_store (store_A "old")) with
  | Some (_, w') => In "1" (dict_keys (load_metadata w'))
  | None => False
  end.
Proof.
  destruct (@scrape_all example_libs 5 30 (net_catalog [article_B])
              (world_with_store (store_A "old"))) as [[r w']|] eqn:E.
  - apply (proj2 (@scrape_all_keeps_records example_libs _ _ _ _ _ _ E)).
    left. reflexivity.
  - vm_compute in E. discriminate.
Defined.

(** * Further properties of the code *)

(** ** Normalization *)

Lemma append_nil_l (b : string) : EmptyString +:+ b = b.
Proof. reflexivity. Qed.

Lemma append_cons (c : ascii) (a b : string) :
  String c a +:+ b = String c (a +:+ b).
Proof. reflexivity. Qed.

Lemma py_split_nl_not_nil (s : string) : py_split_nl s <> [].
Proof.
  induction s as [|c s IH]; simpl; [done |].
  destruct (Ascii.eqb c (ascii_of_nat 10)); [done |].
  by destruct (py_split_nl s).
Qed.

(** Joining the lines of a text with line breaks gives the text back. *)
Lemma py_join_split_nl (s : string) : py_join nl (py_split_nl s) = s.
Proof.
  induction s as [|c s IH]; [done |]. simpl py_split_nl.
  destruct (Ascii.eqb_spec c (ascii_of_nat 10)) as [-> | Hc].
  - pose proof (py_split_nl_not_nil s) as Hne.
    destruct (py_split_nl s) as [|line lines] eqn:E; [done |].
    change (py_join nl (EmptyString :: line :: lines))
      with (EmptyString +:+ nl +:+ py_join nl (line :: lines)).
    by rewrite IH.
  - pose proof (py_split_nl_not_nil s) as Hne.
    destruct (py_split_nl s) as [|line [|l2 lines]] eqn:E; [done | |].
    + simpl in *. by rewrite IH.
    + change (py_join nl (String c line :: l2 :: lines))
        with (String c line +:+ nl +:+ py_join nl (l2 :: lines)).
      change (py_join nl (line :: l2 :: lines))
        with (line +:+ nl +:+ py_join nl (l2 :: lines)) in IH.
      by rewrite append_cons, IH.
Qed.

Lemma lstrip_chars_split (l : list ascii) :
  exists ws, l = ws ++ lstrip_chars l /\ forallb py_isspace ws = true.
Proof.
  induction l as [|c l (ws & Hl & Hws)]; simpl.
  - by exists [].
  - destruct (py_isspace c) eqn:E.
    + exists (c :: ws). simpl. rewrite E, Hws. split; [by f_equal | done].
    + by exists [].
Qed.

Lemma first_char_py_strip (s : string) (c : ascii) :
  first_char (py_strip s) = Some c -> py_isspace c = false.
Proof.
  unfold first_char, py_strip, rstrip_chars.
  rewrite list_ascii_of_string_of_list_ascii.
  set (M := lstrip_chars (list_ascii_of_string s)).
  destruct (lstrip_chars_split (reverse M)) as (ws & Hrev & _).
  set (R := lstrip_chars (reverse M)) in *.
  intros Hhead. apply (head_lstrip_chars (list_ascii_of_string s)).
  fold M. apply (f_equal reverse) in Hrev.
  rewrite reverse_involutive, reverse_app in Hrev. rewrite Hrev.
  destruct (reverse R) as [|x R']; [done |]. exact Hhead.
Qed.

(** The loop over the lines, from any state: the lines kept so far stay,
    and no line that is not blank is dropped. *)
Lemma collapse_keeps_text (lines : list string) :
  forall acc prev,
    List.filter (fun l => negb (is_blank l))
      (fst (fold_left collapse_step lines (acc, prev)))
    = List.filter (fun l => negb (is_blank l)) acc
      ++ List.filter (fun l => negb (is_blank l)) lines.
Proof.
  induction lines as [|line lines IH]; intros acc prev; simpl.
  - by rewrite app_nil_r.
  - fold (is_blank line). destruct (is_blank line) eqn:E; simpl.
    + destruct prev; rewrite IH; [done |].
      rewrite List.filter_app. simpl. rewrite E. simpl.
      by rewrite app_nil_r.
    + rewrite IH, List.filter_app. simpl. rewrite E. simpl.
      by rewrite <- app_assoc.
Qed.

Lemma no_adjacent_blank_snoc (l : list string) (x : string) :
  no_adjacent_blank l = true ->
  (forall y, last l = Some y -> is_blank y && is_blank x = false) ->
  no_adjacent_blank (l ++ [x]) = true.
Proof.
  induction l as [|a [|b l] IH]; intros Hl Hlast; [done | |].
  - simpl. rewrite (Hlast a eq_refl). done.
  - change (no_adjacent_blank (a :: (b :: l) ++ [x]) = true).
    simpl in Hl. apply andb_true_iff in Hl as [Hab Hl].
    simpl. rewrite Hab. simpl. apply IH; [exact Hl |].
    intros y Hy. apply Hlast. by rewrite last_cons_cons.
Qed.

Lemma collapse_invariant (lines : list string) :
  forall acc prev,
    no_adjacent_blank acc = true ->
    (prev = false -> forall y, last acc = Some y -> is_blank y = false) ->
    no_adjacent_blank (fst (fold_left collapse_step lines (acc, prev)))
    = true.
Proof.
  induction lines as [|line lines IH]; intros acc prev Hacc Hprev; simpl;
    [done |].
  fold (is_blank line). destruct (is_blank line) eqn:E.
  - destruct prev.
    + by apply IH.
    + apply IH; [| done]. apply no_adjacent_blank_snoc; [done |].
      intros y Hy. by rewrite (Hprev eq_refl y Hy).
  - apply IH.
    + apply no_adjacent_blank_snoc; [done |]. intros y _.
      rewrite E. apply andb_false_r.
    + intros _ y. rewrite last_snoc. by intros [= <-].
Qed.

(** Lines without two blank lines in a row go through the loop as they
    are. *)
Lemma collapse_identity (lines : list string) :
  forall acc prev,
    no_adjacent_blank lines = true ->
    (prev = true -> forall y, head lines = Some y -> is_blank y = false) ->
    fst (fold_left collapse_step lines (acc, prev)) = acc ++ lines.
Proof.
  induction lines as [|line lines IH]; intros acc prev Hl Hprev; simpl.
  - by rewrite app_nil_r.
  - fold (is_blank line). destruct (is_blank line) eqn:E.
    + destruct prev; [by rewrite (Hprev eq_refl line eq_refl) in E |].
      rewrite IH.
      * by rewrite <- app_assoc.
      * destruct lines as [|b l]; [done |]. simpl in Hl.
        by apply andb_true_iff in Hl as [_ Hl].
      * intros _ y Hy. destruct lines as [|b l]; [done |].
        injection Hy as ->. simpl in Hl. rewrite E in Hl. simpl in Hl.
        apply andb_true_iff in Hl as [Hy _]. by apply negb_true_iff in Hy.
    + rewrite IH.
      * by rewrite <- app_assoc.
      * destruct lines as [|b l]; [done |]. simpl in Hl.
        by apply andb_true_iff in Hl as [_ Hl].
      * done.
Qed.

Section Normalization.
Context `{Libs}.

(** X1.  What [clean_html_to_markdown] returns is the empty string (for an
    empty body, and only then), or the header line alone, or the header line
    followed by a text that is not empty and neither begins nor ends with
    white space. *)
Theorem clean_html_to_markdown_shape (html_content article_url : string) :
  (html_content = EmptyString
   /\ clean_html_to_markdown html_content article_url = EmptyString)
  \/ (html_content <> EmptyString
      /\ clean_html_to_markdown html_content article_url
         = article_url_header article_url)
  \/ (html_content <> EmptyString
      /\ exists text,
           clean_html_to_markdown html_content article_url
           = article_url_header article_url +:+ text
           /\ text <> EmptyString
           /\ (exists c, first_char text = Some c /\ py_isspace c = false)
           /\ (exists c, last_char text = Some c /\ py_isspace c = false)).
Proof.
  unfold clean_html_to_markdown.
  destruct (String.eqb_spec html_content EmptyString) as [-> | Hne];
    [by left |].
  right. set (text := py_strip _).
  destruct (String.eqb_spec text EmptyString) as [E | E].
  - left. split; [done |]. by rewrite E, append_empty_r.
  - right. split; [done |]. exists text. repeat split; [done | |].
    + destruct (first_char text) as [c|] eqn:Hc.
      * exists c. split; [done |]. by apply (first_char_py_strip _ c Hc).
      * unfold first_char in Hc. apply head_None in Hc.
        destruct text; [done | discriminate].
    + destruct (last_char text) as [c|] eqn:Hc.
      * exists c. split; [done |]. by apply (last_char_py_strip _ c Hc).
      * unfold last_char in Hc. apply last_None in Hc.
        destruct text; [done | discriminate].
Qed.

(** X3.  When the converted text has no two blank lines in a row, the
    clean-up of the lines changes nothing: the result is the header line
    followed by the stripped text. *)
Theorem clean_html_to_markdown_no_blank_runs
  (html_content article_url : string) :
  html_content <> EmptyString ->
  no_adjacent_blank (py_split_nl (h2t_handle (bs4_decompose html_content)))
  = true ->
  clean_html_to_markdown html_content article_url
  = article_url_header article_url
    +:+ py_strip (h2t_handle (bs4_decompose html_content)).
Proof.
  intros Hne Hlines. unfold clean_html_to_markdown.
  destruct (String.eqb_spec html_content EmptyString) as [? | _]; [done |].
  rewrite (collapse_identity _ [] false Hlines) by done.
  by rewrite app_nil_l, py_join_split_nl.
Qed.

End Normalization.

(** X2.  The lines that the loop of [clean_html_to_markdown] keeps never
    have two blank lines in a row, and they keep every line that is not
    blank, in order; running the loop on what it has kept changes
    nothing. *)
Theorem collapse_step_no_blank_runs (lines : list string) :
  no_adjacent_blank (fst (fold_left collapse_step lines ([], false))) = true
  /\ List.filter (fun l => negb (is_blank l))
       (fst (fold_left collapse_step lines ([], false)))
     = List.filter (fun l => negb (is_blank l)) lines
  /\ fst (fold_left collapse_step
            (fst (fold_left collapse_step lines ([], false))) ([], false))
     = fst (fold_left collapse_step lines ([], false)).
Proof.
  assert (Hno : no_adjacent_blank
                  (fst (fold_left collapse_step lines ([], false))) = true)
    by by apply collapse_invariant.
  split; [exact Hno |]. split.
  - by rewrite collapse_keeps_text.
  - by rewrite (collapse_identity _ [] false Hno).
Qed.

(** ** More on the engine *)

Section EngineMore.
Context `{Libs}.

Lemma count_outcomes_partition (os : list (string * Classification)) :
  count_outcomes Added os + count_outcomes Updated os
  + count_outcomes Unchanged os + count_outcomes Failed os = length os.
Proof.
  unfold count_outcomes. induction os as [|[k c] os IH]; simpl; [done |].
  destruct c; simpl; lia.
Qed.

Lemma count_outcomes_none (c : Classification)
  (os : list (string * Classification)) :
  (forall k, ~ In (k, c) os) -> count_outcomes c os = 0.
Proof.
  unfold count_outcomes. induction os as [|[k c'] os IH]; intros Hno;
    simpl; [done |].
  destruct (bool_decide_reflect (c' = c)) as [-> | Hne]; simpl.
  - exfalso. apply (Hno k). by left.
  - apply IH. intros k' Hin. apply (Hno k'). by right.
Qed.

Lemma py_slice_to_length {A} (l : list A) (limit : Z) :
  length (py_slice_to l limit)
  = if (limit <? 0)%Z then Z.to_nat (Z.of_nat (length l) + limit)
    else Nat.min (Z.to_nat limit) (length l).
Proof.
  unfold py_slice_to. destruct (Z.ltb_spec limit 0); rewrite length_take; lia.
Qed.

(** The delta invariant on what [scrape_all] returns. *)
Lemma scrape_all_delta_invariant (fuel : nat) (limit : Z) (N : Net)
  (w : World) (r : ScrapeResult) (w' : World) :
  scrape_all fuel limit N w = Some (r, w') ->
  delta_invariant {| stats := r_stats r; new_articles := r_new_articles r;
                     metadata := []; outcomes := r_outcomes r |}.
Proof.
  intros Hrun. apply scrape_all_returns in Hrun
    as [[_ ->] | (all & w1 & st & w2 & _ & _ & Hloop & -> & _)].
  - by repeat split.
  - pose proof (scrape_loop_delta_invariant N (py_slice_to all limit)
                  (init_run (load_metadata w1), w1)
                  (delta_invariant_init _)) as Hinv.
    rewrite Hloop in Hinv. exact Hinv.
Qed.

Lemma scrape_all_delta_member (fuel : nat) (limit : Z) (N : Net)
  (w : World) (r : ScrapeResult) (w' : World) (f : string) :
  scrape_all fuel limit N w = Some (r, w') ->
  In f (r_new_articles r) ->
  exists id c, In (id, c) (r_outcomes r)
               /\ (c = Added \/ c = Updated) /\ f = filename_of id.
Proof.
  intros Hrun Hin.
  destruct (scrape_all_delta_invariant _ _ _ _ _ _ Hrun) as (Hn & _).
  simpl in Hn. rewrite Hn in Hin.
  apply in_map_iff in Hin as ([id c] & <- & Hin).
  apply filter_In in Hin as [Hin Hd].
  exists id, c. repeat split; [done |]. destruct c; auto; done.
Qed.

(** X4.  When the first catalog page is in error or has no item,
    [scrape_all] returns at once: all counters are zero, the list is empty,
    the only request is the one for page 1, and neither the article files
    nor the metadata file are touched (the file is not even created). *)
Theorem scrape_all_empty_catalog (fuel : nat) (limit : Z) (N : Net)
  (w : World) :
  page_items (served N w 1) = [] ->
  0 < fuel ->
  scrape_all fuel limit N w
  = Some ({| r_stats := zero_stats; r_new_articles := []; r_outcomes := [] |},
          send (GetArticlesPage 1 100) w).
Proof.
  intros Hpage Hfuel. destruct fuel as [|fuel]; [lia |].
  unfold scrape_all, fetch_articles_list, served in *. simpl in *.
  rewrite Nat.add_0_r in Hpage.
  destruct (get_articles_page N (tick w) 1 100) as [|[|x l] nxt];
    simpl in Hpage; done.
Qed.

(** X5.  A run of [scrape_all] gives one verdict to each of the descriptors
    of the catalog cut at [limit], in order, and sends one article request
    for each; the four counters add up to their number.  A limit of zero or
    more keeps at most that many descriptors; a negative limit counts from
    the end of the catalog. *)
Theorem scrape_all_counts (fuel : nat) (limit : Z) (N : Net) (w : World)
  (r : ScrapeResult) (w' : World) :
  scrape_all fuel limit N w = Some (r, w') ->
  exists all_articles w1,
    fetch_articles_list fuel N w = Some (all_articles, w1)
    /\ map fst (r_outcomes r) = map ai_id (py_slice_to all_articles limit)
    /\ sum_stats (r_stats r) = length (py_slice_to all_articles limit)
    /\ length (py_slice_to all_articles limit)
       = (if (limit <? 0)%Z
          then Z.to_nat (Z.of_nat (length all_articles) + limit)
          else Nat.min (Z.to_nat limit) (length all_articles))
    /\ requests w'
       = requests w1
         ++ map (fun d => GetArticle (ai_id d))
              (py_slice_to all_articles limit).
Proof.
  intros Hrun.
  destruct (scrape_all_outcomes _ _ _ _ _ _ Hrun) as (all & w1 & Hl & Ho).
  exists all, w1. split; [done |]. split; [done |].
  destruct (scrape_all_delta_invariant _ _ _ _ _ _ Hrun)
    as (_ & Ha & Hu & Hs & Hf). simpl in *.
  split; [| split; [apply py_slice_to_length |]].
  - unfold sum_stats. rewrite Ha, Hu, Hs, Hf, count_outcomes_partition.
    by rewrite <- (length_map fst), Ho, length_map.
  - apply scrape_all_returns in Hrun
      as [[Hl' ->] | (all' & w1' & st & w2 & Hl' & _ & Hloop & _ & ->)];
      rewrite Hl in Hl'; injection Hl' as -> ->.
    + unfold py_slice_to. destruct (limit <? 0)%Z; rewrite take_nil;
        simpl; by rewrite app_nil_r.
    + pose proof (scrape_loop_requests N (py_slice_to all' limit)
                    (init_run (load_metadata w1'), w1')) as Hq.
      by rewrite Hloop in Hq.
Qed.

(** X6.  With a limit of zero and a catalog that is not empty, [scrape_all]
    fetches no article and returns zero counters and an empty list, but it
    still writes the store it has loaded: a metadata file that did not exist
    is created with an empty store. *)
Theorem scrape_all_limit_zero (fuel : nat) (N : Net) (w : World)
  (all_articles : list ArticleInfo) (w1 : World) :
  fetch_articles_list fuel N w = Some (all_articles, w1) ->
  all_articles <> [] ->
  scrape_all fuel 0 N w
  = Some ({| r_stats := zero_stats; r_new_articles := []; r_outcomes := [] |},
          save_metadata (load_metadata w) w1)
  /\ metadata_file (save_metadata (load_metadata w) w1)
     = Some (load_metadata w)
  /\ files w1 = files w.
Proof.
  intros Hl Hne. unfold scrape_all. rewrite Hl.
  apply fetch_articles_loop_world in Hl as (Hf & Hm & _).
  destruct all_articles as [|d l]; [done |].
  unfold py_slice_to. simpl. unfold load_metadata. rewrite Hm. done.
Qed.

(** X7.  When the id of a descriptor is not in the store and the article is
    scraped, the loop of [scrape_all] gives the verdict Added, writes the
    markdown to the cached file of the id, puts a new record at the end of
    the store, with the fingerprint, url and title just scraped and the
    file name of the id, leaves the other records as they were, and appends
    the file name to the list of new file names. *)
Theorem scrape_all_added_article (N : Net) (pre : list ArticleInfo)
  (d : ArticleInfo) (post : list ArticleInfo) (s0 : RunState * World)
  (st : RunState) (w : World) (data : ArticleData) :
  scrape_loop N pre s0 = (st, w) ->
  dict_get (ai_id d) (metadata st) = None ->
  fst (scrape_article N d w) = Some data ->
  exists st' w',
    scrape_step N (st, w) d = (st', w')
    /\ outcomes st' = outcomes st ++ [(ai_id d, Added)]
    /\ added (stats st') = added (stats st) + 1
    /\ files w' = <[article_path (ai_id d) := ad_markdown data]> (files w)
    /\ metadata st'
       = metadata st
         ++ [(ai_id d, {| fr_hash := get_article_hash (ad_markdown data);
                          fr_url := ad_url data;
                          fr_title := ad_title data;
                          fr_filename := filename_of (ai_id d);
                          fr_last_updated := ad_scraped_at data |})]
    /\ new_articles st' = new_articles st ++ [filename_of (ai_id d)]
    /\ scrape_loop N (pre ++ d :: post) s0 = scrape_loop N post (st', w').
Proof.
  intros Hpre Hget Hdata.
  eexists _, _.
  split; [apply (scrape_step_added N st w d data Hdata Hget) |].
  simpl. repeat split.
  - apply scrape_article_Some in Hdata as (a & _ & _ & -> & _).
    clear -Hget. induction (metadata st) as [|[k v] m IH]; simpl in *;
      [done |].
    destruct (String.eqb (ai_id d) k); [done |]. by rewrite IH.
  - rewrite scrape_loop_app, Hpre, scrape_loop_cons.
    by rewrite (scrape_step_added N st w d data Hdata Hget).
Qed.

(** X8.  When the id of a descriptor is in the store with the fingerprint
    of what was just scraped, the loop of [scrape_all] gives the verdict
    Unchanged and counts the article as skipped; it writes no file, leaves
    the store and the list of new file names as they were, and has sent the
    article request only. *)
Theorem scrape_all_unchanged_article (N : Net) (pre : list ArticleInfo)
  (d : ArticleInfo) (post : list ArticleInfo) (s0 : RunState * World)
  (st : RunState) (w : World) (data : ArticleData)
  (record : FingerprintRecord) :
  scrape_loop N pre s0 = (st, w) ->
  dict_get (ai_id d) (metadata st) = Some record ->
  fst (scrape_article N d w) = Some data ->
  fr_hash record = ad_hash data ->
  exists st',
    scrape_step N (st, w) d = (st', send (GetArticle (ai_id d)) w)
    /\ outcomes st' = outcomes st ++ [(ai_id d, Unchanged)]
    /\ skipped (stats st') = skipped (stats st) + 1
    /\ metadata st' = metadata st
    /\ new_articles st' = new_articles st
    /\ scrape_loop N (pre ++ d :: post) s0
       = scrape_loop N post (st', send (GetArticle (ai_id d)) w).
Proof.
  intros Hpre Hget Hdata Hh.
  eexists. split;
    [apply (scrape_step_unchanged N st w d data record Hdata Hget Hh) |].
  simpl. repeat split.
  rewrite scrape_loop_app, Hpre, scrape_loop_cons.
  by rewrite (scrape_step_unchanged N st w d data record Hdata Hget Hh).
Qed.

End EngineMore.

(** ** Runs that change nothing, first runs, and what is handed on *)

Section EngineRuns.
Context `{Libs}.

(** The loop over descriptors that all read as the store has them. *)
Lemma scrape_loop_all_unchanged (N : Net) (m : Metadata)
  (l : list ArticleInfo) :
  (forall d, In d l -> forall t, exists a record,
      get_article N t (ai_id d) = Some a
      /\ dict_get (ai_id d) m = Some record
      /\ clean_html_to_markdown (body a) (html_url a) <> EmptyString
      /\ clean_html_to_markdown (body a) (html_url a)
         <> article_url_header (html_url a)
      /\ fr_hash record
         = get_article_hash (clean_html_to_markdown (body a) (html_url a))) ->
  forall st w, metadata st = m ->
  exists st' w',
    scrape_loop N l (st, w) = (st', w')
    /\ metadata st' = m
    /\ new_articles st' = new_articles st
    /\ files w' = files w
    /\ metadata_file w' = metadata_file w
    /\ skipped (stats st') = skipped (stats st) + length l
    /\ added (stats st') = added (stats st)
    /\ updated (stats st') = updated (stats st)
    /\ failed (stats st') = failed (stats st).
Proof.
  induction l as [|d l IH]; intros Hall st w Hm.
  - exists st, w. simpl. repeat split; auto; lia.
  - destruct (Hall d (or_introl eq_refl) (tick w))
      as (a & record & Ha & Hget & Hne & Hnh & Hh).
    destruct (fst (scrape_article N d w)) as [data|] eqn:E.
    + pose proof E as E'.
      apply scrape_article_Some in E' as (a' & Ha' & Hmd & Hhash & _).
      assert (a' = a) as -> by congruence.
      rewrite <- Hm in Hget.
      rewrite scrape_loop_cons,
        (scrape_step_unchanged N st w d data record E Hget)
        by (rewrite Hh, Hhash; by rewrite Hmd).
      edestruct (IH (fun d' Hd' => Hall d' (or_intror Hd')))
        as (st' & w' & -> & Hm' & Hn' & Hf' & Hmf' & Hs' & Ha'' & Hu' & Hfl');
        [exact Hm |].
      exists st', w'. simpl in *. repeat split; auto; lia.
    + apply scrape_article_None in E as [E | (a' & Ha' & [E | E])].
      * congruence.
      * assert (a' = a) as -> by congruence. done.
      * assert (a' = a) as -> by congruence. done.
Qed.

(** X9.  A run in which every processed article is fetched with content
    whose fingerprint is the stored one changes nothing: the list returned
    is empty, every article is counted as skipped, and the store and the
    article files are as they were. *)
Theorem scrape_all_nothing_changed (fuel : nat) (limit : Z) (N : Net)
  (w : World) (all_articles : list ArticleInfo) (w1 : World)
  (r : ScrapeResult) (w' : World) :
  fetch_articles_list fuel N w = Some (all_articles, w1) ->
  (forall d, In d (py_slice_to all_articles limit) -> forall t,
     exists a record,
       get_article N t (ai_id d) = Some a
       /\ dict_get (ai_id d) (load_metadata w) = Some record
       /\ clean_html_to_markdown (body a) (html_url a) <> EmptyString
       /\ clean_html_to_markdown (body a) (html_url a)
          <> article_url_header (html_url a)
       /\ fr_hash record
          = get_article_hash
              (clean_html_to_markdown (body a) (html_url a))) ->
  scrape_all fuel limit N w = Some (r, w') ->
  r_new_articles r = []
  /\ skipped (r_stats r) = length (py_slice_to all_articles limit)
  /\ added (r_stats r) = 0
  /\ updated (r_stats r) = 0
  /\ failed (r_stats r) = 0
  /\ load_metadata w' = load_metadata w
  /\ files w' = files w.
Proof.
  intros Hl Hall Hrun.
  pose proof Hl as Hworld.
  apply fetch_articles_loop_world in Hworld as (Hf & Hm & _).
  apply scrape_all_returns in Hrun
    as [[Hl' ->] | (all' & w1' & st & w2 & Hl' & _ & Hloop & -> & ->)];
    rewrite Hl in Hl'; injection Hl' as -> ->.
  - unfold load_metadata. rewrite Hm.
    assert (py_slice_to ([] : list ArticleInfo) limit = []) as ->.
    { unfold py_slice_to. by destruct (limit <? 0)%Z; rewrite take_nil. }
    by repeat split.
  - assert (Hmeta : load_metadata w1' = load_metadata w).
    { unfold load_metadata. by rewrite Hm. }
    destruct (scrape_loop_all_unchanged N (load_metadata w)
                (py_slice_to all' limit) Hall
                (init_run (load_metadata w1')) w1' Hmeta)
      as (st' & w2' & Hloop' & Hm' & Hn' & Hf' & _ & Hs' & Ha' & Hu' & Hfl').
    rewrite Hloop in Hloop'. injection Hloop' as <- <-.
    simpl in *. repeat split; auto. congruence.
Qed.

Lemma dict_keys_set_in {V} (k k0 : string) (v : V) (d : list (string * V)) :
  In k (dict_keys (dict_set k0 v d)) -> k = k0 \/ In k (dict_keys d).
Proof.
  induction d as [|[k' v'] d IH]; simpl.
  - intros [<- | []]. by left.
  - destruct (String.eqb_spec k0 k'); simpl.
    + intros [<- | Hin]; auto.
    + intros [<- | Hin]; auto. destruct (IH Hin); auto.
Qed.

Lemma dict_get_not_key {V} (k : string) (d : list (string * V)) :
  ~ In k (dict_keys d) -> dict_get k d = None.
Proof.
  intros Hno. destruct (dict_get k d) as [v|] eqn:E; [| done].
  by apply dict_get_Some_keys in E.
Qed.

(** The loop over ids that are all different and not in the store. *)
Lemma scrape_loop_fresh (N : Net) (l : list ArticleInfo) :
  forall st w,
    NoDup (map ai_id l) ->
    (forall d, In d l -> ~ In (ai_id d) (dict_keys (metadata st))) ->
    forall k c, In (k, c) (outcomes (fst (scrape_loop N l (st, w)))) ->
      In (k, c) (outcomes st) \/ c = Added \/ c = Failed.
Proof.
  induction l as [|d l IH]; intros st w Hnd Hfresh k c; [auto |].
  simpl map in Hnd. apply NoDup_cons in Hnd as [Hd Hnd].
  assert (Hnone : dict_get (ai_id d) (metadata st) = None).
  { apply dict_get_not_key, Hfresh. by left. }
  rewrite scrape_loop_cons.
  destruct (fst (scrape_article N d w)) as [data|] eqn:E.
  - rewrite (scrape_step_added N st w d data E Hnone).
    intros Hin. apply IH in Hin; [| done |].
    + simpl in Hin. destruct Hin as [Hin | Hin]; [| auto].
      apply in_app_or in Hin as [Hin | [[= _ <-] | []]]; auto.
    + simpl. intros d' Hd' Hk. apply dict_keys_set_in in Hk as [Hk | Hk].
      * apply Hd. rewrite <- Hk. apply list_elem_of_In. by apply in_map.
      * apply (Hfresh d'); [by right | done].
  - rewrite (scrape_step_failed N st w d E).
    intros Hin. apply IH in Hin; [| done |].
    + simpl in Hin. destruct Hin as [Hin | Hin]; [| auto].
      apply in_app_or in Hin as [Hin | [[= _ <-] | []]]; auto.
    + simpl. intros d' Hd'. apply Hfresh. by right.
Qed.

(** X10.  A run that starts without a store (a first run, or one after the
    metadata file was removed) and processes no id twice gives every
    descriptor the verdict Added or Failed: nothing is counted as updated
    or skipped. *)
Theorem scrape_all_first_run (fuel : nat) (limit : Z) (N : Net) (w : World)
  (r : ScrapeResult) (w' : World) :
  load_metadata w = [] ->
  NoDup (map fst (r_outcomes r)) ->
  scrape_all fuel limit N w = Some (r, w') ->
  (forall id c, In (id, c) (r_outcomes r) -> c = Added \/ c = Failed)
  /\ updated (r_stats r) = 0
  /\ skipped (r_stats r) = 0
  /\ length (r_new_articles r) = added (r_stats r).
Proof.
  intros Hempty Hnd Hrun.
  assert (Hverdicts : forall id c, In (id, c) (r_outcomes r) ->
            c = Added \/ c = Failed).
  { pose proof Hrun as Hrun'.
    apply scrape_all_returns in Hrun'
      as [[_ ->] | (all & w1 & st & w2 & Hl & _ & Hloop & -> & ->)];
      [done |].
    apply fetch_articles_loop_world in Hl as (_ & Hm & _).
    pose proof (scrape_loop_outcomes N (py_slice_to all limit)
                  (init_run (load_metadata w1), w1)) as Ho.
    rewrite Hloop in Ho. simpl in Ho, Hnd. rewrite Ho in Hnd.
    intros id c Hin.
    pose proof (scrape_loop_fresh N (py_slice_to all limit)
                  (init_run (load_metadata w1)) w1 Hnd) as Hfresh.
    rewrite Hloop in Hfresh. simpl in Hfresh.
    destruct (Hfresh ltac:(unfold load_metadata in *; rewrite Hm, Hempty;
                           intros ? ? []) id c Hin) as [[] | ?]; done. }
  destruct (scrape_all_delta_invariant _ _ _ _ _ _ Hrun)
    as (Hn & Ha & Hu & Hs & _). simpl in *.
  assert (Hu0 : updated (r_stats r) = 0).
  { rewrite Hu. apply count_outcomes_none. intros k Hin.
    by destruct (Hverdicts k Updated Hin). }
  repeat split; [exact Hverdicts | exact Hu0 | |].
  - rewrite Hs. apply count_outcomes_none. intros k Hin.
    by destruct (Hverdicts k Unchanged Hin).
  - rewrite Hn, length_map, length_filter_is_delta, <- Ha, <- Hu. lia.
Qed.

(** X11.  Every file name that [scrape_all] returns names a file that the
    run has written in the articles directory; the file holds markdown that
    is not empty, and the saved store has a record for the article with the
    fingerprint of that markdown. *)
Theorem scrape_all_new_articles_cached (fuel : nat) (limit : Z) (N : Net)
  (w : World) (r : ScrapeResult) (w' : World) (f : string) :
  scrape_all fuel limit N w = Some (r, w') ->
  In f (r_new_articles r) ->
  exists id md record,
    f = filename_of id
    /\ files w' !! os_path_join scraper_articles_dir f = Some md
    /\ md <> EmptyString
    /\ dict_get id (load_metadata w') = Some record
    /\ fr_hash record = get_article_hash md.
Proof.
  intros Hrun Hin.
  destruct (scrape_all_delta_member _ _ _ _ _ _ _ Hrun Hin)
    as (id & c & Hout & Hc & ->).
  destruct (scrape_all_cached _ _ _ _ _ _ _ _ Hrun Hout Hc)
    as (md & record & Hfile & Hget & Hh & [Hne _]).
  by exists id, md, record.
Qed.

(** X12.  With the key in the environment and a scrape that has returned,
    [main] returns the exit code 1 exactly when [upload_delta_files] raises
    and 0 otherwise; it returns 0 whenever no register call answers with a
    value that is not an object.  The upload changes no local file, and
    when [main] returns 0 it has posted every file that the scrape has
    returned, with the content that the scrape has just written. *)
Theorem main_uploads_new_articles (fault : ScrapeFault) (fuel : nat)
  (N : Net) (env : OsEnv) (w : World) (manager : VectorStoreManager)
  (r : ScrapeResult) (w1 : World) (code : Z) (w' : World) :
  VectorStoreManager_init env = Some manager ->
  scrape_all_run fault fuel 50 N w = Some (Returns (r, w1)) ->
  main fault fuel N env w = Some (code, w') ->
  files w' = files w1
  /\ (code = 0%Z \/ code = 1%Z)
  /\ (code = 1%Z <->
      exists w2, upload_delta_files N manager (r_new_articles r) "articles"
                   w1 = Raises w2)
  /\ (registers_objects N -> code = 0%Z)
  /\ (code = 0%Z ->
      forall f, In f (r_new_articles r) ->
        exists md,
          files w1 !! os_path_join "articles" f = Some md
          /\ In (PostFile (os_path_basename (os_path_join "articles" f)) md)
               (requests w')).
Proof.
  intros Hinit Hscr. unfold main. rewrite Hscr.
  apply scrape_all_run_returns in Hscr as Hrun.
  destruct (r_new_articles r) as [|x l] eqn:Hnew.
  - intros [= <- <-]. repeat split; auto; try done.
    by intros [w2 ?].
  - rewrite Hinit, upload_delta_files_loop.
    destruct (upload_loop_effect N manager
                (map (os_path_join "articles") (x :: l)) 0 0 w1)
      as [(u & fl & w2 & rs & -> & _ & _ & _ & Hfiles & _ & Hr & _ & _
           & Hposted)
         | (w2 & rs & -> & Hfiles & _ & _ & _ & _ & t & nm & c & Hbad)];
      intros [= <- <-].
    + split; [done |]. split; [by left |]. split; [| split; [done |]].
      * split; [done | by intros [w3 ?]].
      * intros _ f Hf.
        assert (Hin : In f (r_new_articles r)) by by rewrite Hnew.
        destruct (scrape_all_delta_member _ _ _ _ _ _ _ Hrun Hin)
          as (id & cl & Hout & Hc & ->).
        destruct (scrape_all_cached _ _ _ _ _ _ _ _ Hrun Hout Hc)
          as (md & record & Hfile & _).
        exists md. split; [exact Hfile |]. rewrite Hr. apply in_or_app.
        right. apply Hposted; [by apply in_map | exact Hfile].
    + split; [done |]. split; [by right |]. split; [| split; [| done]].
      * split; [intros _; by exists w2 | done].
      * intros Hobj. by destruct (Hobj t nm c).
Qed.

End EngineRuns.

(** ** Paths *)

Lemma os_path_basename_no_slash (s : string) :
  has_slash s = false -> os_path_basename s = s.
Proof.
  unfold has_slash. induction s as [|c s IH]; [done |].
  cbn [list_ascii_of_string existsb os_path_basename].
  intros Hs. apply orb_false_iff in Hs as [Hc Hs]. rewrite Hs.
  by rewrite (Ascii.eqb_sym c), Hc.
Qed.

Lemma has_slash_append (a b : string) :
  has_slash (a +:+ b) = has_slash a || has_slash b.
Proof. unfold has_slash. by rewrite list_ascii_of_append, existsb_app. Qed.

Lemma os_path_basename_after_slash (a b : string) :
  has_slash b = false -> os_path_basename (a +:+ "/" +:+ b) = b.
Proof.
  intros Hb. induction a as [|c a IH].
  - rewrite append_nil_l. change ("/" +:+ b) with (String "/"%char b).
    cbn [os_path_basename]. fold (has_slash b). rewrite Hb.
    by rewrite Ascii.eqb_refl.
  - rewrite append_cons. cbn [os_path_basename].
    fold (has_slash (a +:+ "/" +:+ b)).
    rewrite has_slash_append.
    change ("/" +:+ b) with (String "/"%char b) at 1.
    assert (has_slash (String "/"%char b) = true) as ->.
    { unfold has_slash. cbn [list_ascii_of_string existsb].
      by rewrite Ascii.eqb_refl. }
    by rewrite orb_true_r.
Qed.

Lemma endswith_slash_split (a : string) :
  endswith_slash a = true -> exists a', a = a' +:+ "/".
Proof.
  induction a as [|c a IH]; [done |].
  destruct a as [|c' a]; cbn [endswith_slash].
  - intros Hc. apply Ascii.eqb_eq in Hc as ->. by exists EmptyString.
  - intros Ha. destruct (IH Ha) as [a' ->]. by exists (String c a').
Qed.

(** X13.  For a name without a slash, the base name of the path that
    [os.path.join] builds in any directory is the name itself: the uploader
    registers a file under the file name that the scraper returned. *)
Theorem os_path_basename_join (dir name : string) :
  has_slash name = false ->
  os_path_basename (os_path_join dir name) = name.
Proof.
  intros Hn. unfold os_path_join.
  assert (startswith_slash name = false) as ->.
  { destruct name as [|c name]; [done |]. unfold has_slash in Hn.
    cbn [list_ascii_of_string existsb startswith_slash] in *.
    apply orb_false_iff in Hn as [Hc _].
    by rewrite Ascii.eqb_sym. }
  destruct (String.eqb_spec dir EmptyString) as [-> | Hd]; simpl.
  - by apply os_path_basename_no_slash.
  - destruct (endswith_slash dir) eqn:E.
    + apply endswith_slash_split in E as [a' ->].
      rewrite append_assoc. by apply os_path_basename_after_slash.
    + by apply os_path_basename_after_slash.
Qed.

(** ** More on the uploader *)

(** X14.  [upload_delta_files] never changes a local file nor the metadata
    file, and it sends at most two requests, all of them POST, for each file
    name of its input, whether it returns or raises. *)
Theorem upload_delta_files_frame (N : Net) (self : VectorStoreManager)
  (new_filenames : list string) (articles_dir : string) (w : World) :
  files (outcome_world snd
           (upload_delta_files N self new_filenames articles_dir w))
  = files w
  /\ metadata_file
       (outcome_world snd
          (upload_delta_files N self new_filenames articles_dir w))
     = metadata_file w
  /\ exists rs,
       requests (outcome_world snd
                   (upload_delta_files N self new_filenames articles_dir w))
       = requests w ++ rs
       /\ length rs <= 2 * length new_filenames
       /\ (forall q, In q rs -> http_method q = POST).
Proof.
  rewrite upload_delta_files_loop.
  destruct (upload_loop_effect N self
              (map (os_path_join articles_dir) new_filenames) 0 0 w)
    as [(u & f & w' & rs & -> & _ & _ & _ & Hf & Hm & Hr & Hl & Hp & _)
       | (w' & rs & -> & Hf & Hm & Hr & Hl & Hp & _)];
    simpl; (split; [done |]); (split; [done |]);
    exists rs; rewrite length_map in Hl; done.
Qed.

(** X15.  When a file cannot be registered, because it cannot be read or
    because the register step fails, [upload_delta_files] counts it as
    failed and not as uploaded; it has sent no request for an unreadable
    file and the register request alone otherwise, never an attach request;
    and the loop goes on with the file names that follow: whenever the call
    returns, the failure is counted in the result, and the call returns
    whenever no register call answers with a value that is not an
    object. *)
Theorem upload_delta_files_register_failure (N : Net)
  (self : VectorStoreManager) (articles_dir : string) (pre : list string)
  (name : string) (post : list string) (w : World) (u fl : nat)
  (w0 : World) :
  upload_loop N self (map (os_path_join articles_dir) pre) (0, 0, w)
  = Returns (u, fl, w0) ->
  fst (upload_file N (os_path_join articles_dir name) w0) = None ->
  exists w2,
    upload_step N self (u, fl, w0) (os_path_join articles_dir name)
    = Returns (u, fl + 1, w2)
    /\ ((files w0 !! os_path_join articles_dir name = None /\ w2 = w0)
        \/ (exists content,
              files w0 !! os_path_join articles_dir name = Some content
              /\ w2 = send (PostFile (os_path_basename
                                        (os_path_join articles_dir name))
                              content) w0))
    /\ upload_delta_files N self (pre ++ name :: post) articles_dir w
       = match upload_loop N self (map (os_path_join articles_dir) post)
                 (u, fl + 1, w2) with
         | Returns (u', f', w') =>
             Returns ({| uploaded := u'; upload_failed := f';
                         total := length (pre ++ name :: post) |}, w')
         | Raises w' => Raises w'
         end
    /\ (forall r w',
          upload_delta_files N self (pre ++ name :: post) articles_dir w
          = Returns (r, w') ->
          fl + 1 <= upload_failed r)
    /\ (registers_objects N ->
        exists u' f' w',
          upload_loop N self (map (os_path_join articles_dir) post)
            (u, fl + 1, w2) = Returns (u', f', w')
          /\ upload_delta_files N self (pre ++ name :: post) articles_dir w
             = Returns ({| uploaded := u'; upload_failed := f';
                           total := length (pre ++ name :: post) |}, w')
          /\ fl + 1 <= f').
Proof.
  intros Hpre Hreg.
  set (p := os_path_join articles_dir name) in *.
  assert (Hstep : exists w2,
    upload_step N self (u, fl, w0) p = Returns (u, fl + 1, w2)
    /\ ((files w0 !! p = None /\ w2 = w0)
        \/ (exists content, files w0 !! p = Some content
              /\ w2 = send (PostFile (os_path_basename p) content) w0))).
  { unfold upload_step. unfold upload_file in *.
    destruct (files w0 !! p) as [content|] eqn:Ef; simpl in Hreg.
    - rewrite Hreg. eexists. split; [reflexivity |]. right. by exists content.
    - eexists. split; [reflexivity |]. by left. }
  destruct Hstep as (w2 & Hstep & Hw2).
  assert (Hdelta : upload_delta_files N self (pre ++ name :: post)
                     articles_dir w
                   = match upload_loop N self
                             (map (os_path_join articles_dir) post)
                             (u, fl + 1, w2) with
                     | Returns (u', f', w') =>
                         Returns ({| uploaded := u'; upload_failed := f';
                                     total := length (pre ++ name :: post) |},
                                  w')
                     | Raises w' => Raises w'
                     end).
  { rewrite upload_delta_files_loop, map_app, upload_loop_app, Hpre.
    simpl map. rewrite upload_loop_cons. fold p. by rewrite Hstep. }
  exists w2. split; [exact Hstep |]. split; [exact Hw2 |].
  split; [exact Hdelta |]. rewrite Hdelta.
  destruct (upload_loop_effect N self (map (os_path_join articles_dir) post)
              u (fl + 1) w2)
    as [(u' & f' & w' & rs & -> & _ & _ & Hf & _)
       | (w' & rs & -> & _ & _ & _ & _ & _ & t & nm & c & Hbad)].
  - split.
    + by intros r w'' [= <- <-].
    + intros _. by exists u', f', w'.
  - split; [done |]. intros Hobj. by destruct (Hobj t nm c).
Qed.

Lemma upload_loop_all_succeed (N : Net) (self : VectorStoreManager)
  (paths : list string) :
  (forall t name content,
     exists id, post_file N t name content = Some (FileObject id)) ->
  (forall t vs file_id, post_vector_store_file N t vs file_id = true) ->
  forall u f w,
    (forall p, In p paths -> files w !! p <> None) ->
    exists w',
      upload_loop N self paths (u, f, w)
      = Returns (u + length paths, f, w')
      /\ length (requests w') = length (requests w) + 2 * length paths.
Proof.
  intros Hreg Hatt. induction paths as [|p paths IH]; intros u f w Hfiles.
  - exists w. simpl. split; [| lia]. do 3 f_equal. lia.
  - rewrite upload_loop_cons.
    unfold upload_step, upload_file, add_file_to_vector_store.
    destruct (files w !! p) as [content|] eqn:Ef;
      [| by destruct (Hfiles p (or_introl eq_refl))].
    destruct (Hreg (tick w) (os_path_basename p) content) as [file_id ->].
    rewrite Hatt.
    edestruct (IH (u + 1) f) as (w' & -> & Hlen).
    + intros q Hq. simpl. apply Hfiles. by right.
    + exists w'. split.
      * do 3 f_equal. simpl. lia.
      * rewrite Hlen. unfold send; simpl. rewrite !length_app. simpl. lia.
Qed.

(** X16.  When every file of the input can be read, the register endpoint
    always returns an object and the attach endpoint always succeeds,
    [upload_delta_files] returns, counts every file as uploaded and none as
    failed, and has sent exactly two requests for each. *)
Theorem upload_delta_files_all_succeed (N : Net) (self : VectorStoreManager)
  (new_filenames : list string) (articles_dir : string) (w : World) :
  (forall t name content,
     exists id, post_file N t name content = Some (FileObject id)) ->
  (forall t vs file_id, post_vector_store_file N t vs file_id = true) ->
  (forall f, In f new_filenames ->
     files w !! os_path_join articles_dir f <> None) ->
  exists w',
    upload_delta_files N self new_filenames articles_dir w
    = Returns ({| uploaded := length new_filenames;
                  upload_failed := 0;
                  total := length new_filenames |}, w')
    /\ length (requests w')
       = length (requests w) + 2 * length new_filenames.
Proof.
  intros Hreg Hatt Hfiles. rewrite upload_delta_files_loop.
  destruct (upload_loop_all_succeed N self
              (map (os_path_join articles_dir) new_filenames) Hreg Hatt
              0 0 w)
    as (w' & -> & Hlen).
  - intros p Hp. apply in_map_iff in Hp as (f & <- & Hf). by apply Hfiles.
  - exists w'. rewrite length_map in *. done.
Qed.

(** X17.  [VectorStoreManager] is built exactly when the key is in the
    environment and is not the empty string; it then carries the key and the
    two identifiers of the environment. *)
Theorem VectorStoreManager_init_spec (env : OsEnv) :
  (VectorStoreManager_init env = None <->
   OPENAI_API_KEY env = None \/ OPENAI_API_KEY env = Some EmptyString)
  /\ (forall manager, VectorStoreManager_init env = Some manager ->
        OPENAI_API_KEY env = Some (api_key manager)
        /\ api_key manager <> EmptyString
        /\ vector_store_id manager = VECTOR_STORE_ID env
        /\ assistant_id manager = ASSISTANT_ID env).
Proof.
  unfold VectorStoreManager_init.
  destruct (OPENAI_API_KEY env) as [key|].
  - destruct (String.eqb_spec key EmptyString) as [-> | Hne].
    + split; [split; auto | done].
    + split.
      * split; [done |]. intros [? | [= ?]]; done.
      * intros manager [= <-]. by simpl.
  - split; [split; auto | done].
Qed.

(** ** [upload_all_articles] *)

(** X18.  [upload_all_articles] returns nothing exactly when the directory
    does not exist or lists no name that ends with ".md", and it has then
    sent no request and changed nothing. *)
Theorem upload_all_articles_nothing (N : Net) (self : VectorStoreManager)
  (listing : option (list string)) (articles_dir : string) (w : World) :
  ((exists w', upload_all_articles N self listing articles_dir w
               = Returns (None, w')) <->
   listing = None
   \/ exists names, listing = Some names /\ markdown_names names = [])
  /\ (forall w', upload_all_articles N self listing articles_dir w
                 = Returns (None, w') ->
      w' = w).
Proof.
  unfold upload_all_articles. destruct listing as [names|].
  - destruct (markdown_names names) as [|x l] eqn:E; simpl map.
    + split; [| by intros w' [= <-]]. split; [| by exists w].
      intros _. right. by exists names.
    + destruct (upload_all_loop N self _ 0 0 w) as [[[u f] w']|w'].
      * split; [| done]. split; [by intros [w'' ?] |].
        intros [? | (names' & [= <-] & E')]; [done |]. congruence.
      * split; [| done]. split; [by intros [w'' ?] |].
        intros [? | (names' & [= <-] & E')]; [done |]. congruence.
  - split; [| by intros w' [= <-]]. split; [auto | by exists w].
Qed.

(** The loop of [upload_all_articles] and the loop of [upload_delta_files]
    compute the same on every list of paths and from every state. *)
Lemma upload_all_loop_upload_loop (N : Net) (self : VectorStoreManager)
  (paths : list string) :
  forall u f w,
    upload_all_loop N self paths u f w
    = upload_loop N self paths (u, f, w).
Proof.
  induction paths as [|p paths IH]; intros u f w; [done |].
  rewrite upload_loop_cons. cbn [upload_all_loop]. unfold upload_step.
  destruct (upload_file N p w) as [[[file_id|]|] w1]; [| done |].
  - destruct (add_file_to_vector_store N self file_id w1) as [[|] w2];
      by rewrite IH.
  - by rewrite IH.
Qed.

(** X19.  When the directory lists at least one name that ends with ".md",
    [upload_all_articles] does what [upload_delta_files] does on these names,
    in the order of the listing: it raises when the other raises, and
    otherwise returns the same counts after the same requests, followed by
    one GET for the statistics of the vector store exactly when at least one
    file was uploaded; that GET is the only request of the call that is not
    a POST. *)
Theorem upload_all_articles_as_delta (N : Net) (self : VectorStoreManager)
  (names : list string) (articles_dir : string) (w : World) :
  markdown_names names <> [] ->
  upload_all_articles N self (Some names) articles_dir w
  = match upload_delta_files N self (markdown_names names) articles_dir w
    with
    | Returns (r, w') =>
        Returns (Some r,
                 if 0 <? uploaded r
                 then send (GetVectorStore (vector_store_id self)) w'
                 else w')
    | Raises w' => Raises w'
    end
  /\ (forall res w',
        upload_all_articles N self (Some names) articles_dir w
        = Returns (res, w') ->
        exists r w1 rs,
          res = Some r
          /\ upload_delta_files N self (markdown_names names) articles_dir w
             = Returns (r, w1)
          /\ total r = length (markdown_names names)
          /\ uploaded r + upload_failed r = total r
          /\ requests w1 = requests w ++ rs
          /\ (forall q, In q rs -> http_method q = POST)
          /\ requests w'
             = requests w ++ rs
               ++ (if 0 <? uploaded r
                   then [GetVectorStore (vector_store_id self)] else [])
          /\ files w' = files w)
  /\ (forall name, In name (markdown_names names) <->
        In name names /\ py_endswith name ".md" = true).
Proof.
  intros Hne.
  assert (Hmem : forall name, In name (markdown_names names) <->
            In name names /\ py_endswith name ".md" = true).
  { intros name. unfold markdown_names. by rewrite filter_In. }
  assert (Heq : upload_all_articles N self (Some names) articles_dir w
    = match upload_delta_files N self (markdown_names names) articles_dir w
      with
      | Returns (r, w') =>
          Returns (Some r,
                   if 0 <? uploaded r
                   then send (GetVectorStore (vector_store_id self)) w'
                   else w')
      | Raises w' => Raises w'
      end).
  { unfold upload_all_articles, upload_delta_files, get_vector_store_info.
    destruct (markdown_names names) as [|x l] eqn:E; [done |]. simpl map.
    rewrite upload_all_loop_upload_loop.
    by destruct (upload_loop N self _ (0, 0, w)) as [[[u f] w']|w']. }
  split; [exact Heq |]. split; [| exact Hmem].
  intros res w'. rewrite Heq, upload_delta_files_loop.
  destruct (upload_loop_effect N self
              (map (os_path_join articles_dir) (markdown_names names)) 0 0 w)
    as [(u & f & w1 & rs & -> & Hc & _ & _ & Hf & _ & Hr & _ & Hp & _)
       | (w1 & rs & -> & _)]; [| done].
  intros [= <- <-]. eexists _, w1, rs. split; [reflexivity |].
  split; [reflexivity |]. cbn [total uploaded upload_failed].
  rewrite length_map in Hc. split; [done |]. split; [lia |].
  split; [exact Hr |]. split; [exact Hp |].
  destruct (0 <? u); simpl.
  - split; [| exact Hf]. by rewrite Hr, <- app_assoc.
  - split; [| exact Hf]. by rewrite Hr, app_nil_r.
Qed.

(** ** The lister without an end *)

(** X20.  The lister has no bound on the number of pages: against a catalog
    whose every page has items and announces a next page, the loop of
    [fetch_articles_list] does not stop, so that neither it nor
    [scrape_all] nor [main] returns, whatever the fuel. *)
Theorem fetch_articles_list_endless `{Libs} (N : Net) (fuel : nat)
  (limit : Z) (fault : ScrapeFault) (env : OsEnv) (w : World) :
  (forall t p, stops (get_articles_page N t p 100) = false) ->
  fetch_articles_list fuel N w = None
  /\ scrape_all fuel limit N w = None
  /\ main fault fuel N env w = None.
Proof.
  intros Hgo.
  assert (Hl : fetch_articles_list fuel N w = None).
  { apply fetch_articles_loop_diverges, Hgo. }
  unfold main, scrape_all_run, scrape_all. by rewrite Hl.
Qed.

(** ** The keys of the store after a run *)

Lemma dict_set_absent {V} (k : string) (v : V) (d : list (string * V)) :
  dict_get k d = None -> dict_set k v d = d ++ [(k, v)].
Proof.
  induction d as [|[k' v'] d IH]; simpl; [done |].
  destruct (String.eqb k k'); [done |]. intros E. by rewrite IH.
Qed.

Section StoreKeys.
Context `{Libs}.

Lemma scrape_step_store_keys (N : Net) (s : RunState * World)
  (d : ArticleInfo) (keys0 : list string) :
  dict_keys (metadata (fst s))
  = keys0 ++ map fst (List.filter (fun o => bool_decide (snd o = Added))
                        (outcomes (fst s))) ->
  dict_keys (metadata (fst (scrape_step N s d)))
  = keys0 ++ map fst (List.filter (fun o => bool_decide (snd o = Added))
                        (outcomes (fst (scrape_step N s d)))).
Proof.
  destruct s as [st w]. simpl fst at 1 2. intros Hk.
  destruct (scrape_step_cases N st w d)
    as [E | [(data & record & E & Hg & Hh)
          | [(data & record & E & Hg & Hh) | (data & E & Hg)]]].
  - rewrite (scrape_step_failed N st w d E). simpl.
    rewrite List.filter_app. simpl. by rewrite app_nil_r.
  - rewrite (scrape_step_unchanged N st w d data record E Hg Hh). simpl.
    rewrite List.filter_app. simpl. by rewrite app_nil_r.
  - rewrite (scrape_step_updated N st w d data record E Hg Hh). simpl.
    rewrite List.filter_app. simpl. rewrite app_nil_r.
    by rewrite (dict_keys_set_present _ record).
  - rewrite (scrape_step_added N st w d data E Hg). simpl.
    rewrite (dict_set_absent _ _ _ Hg), List.filter_app. simpl.
    unfold dict_keys in *. rewrite !map_app, Hk. simpl.
    by rewrite <- app_assoc.
Qed.

(** X21.  After a run of [scrape_all] the keys of the saved store are the
    keys of before followed by the ids that the run has given the verdict
    Added, in the order of the run: the store grows by as many records as
    articles were counted as added. *)
Theorem scrape_all_store_keys (fuel : nat) (limit : Z) (N : Net) (w : World)
  (r : ScrapeResult) (w' : World) :
  scrape_all fuel limit N w = Some (r, w') ->
  dict_keys (load_metadata w')
  = dict_keys (load_metadata w)
    ++ map fst (List.filter (fun o => bool_decide (snd o = Added))
                  (r_outcomes r))
  /\ length (load_metadata w')
     = length (load_metadata w) + added (r_stats r).
Proof.
  intros Hrun.
  assert (Hkeys : dict_keys (load_metadata w')
            = dict_keys (load_metadata w)
              ++ map fst (List.filter (fun o => bool_decide (snd o = Added))
                            (r_outcomes r))).
  { pose proof Hrun as Hrun'.
    apply scrape_all_returns in Hrun'
      as [[Hl ->] | (all & w1 & st & w2 & Hl & _ & Hloop & -> & ->)];
      apply fetch_articles_loop_world in Hl as (_ & Hm & _).
    - simpl. rewrite app_nil_r. unfold load_metadata. by rewrite Hm.
    - assert (Hinv : dict_keys (metadata (fst (st, w2)))
                = dict_keys (load_metadata w)
                  ++ map fst (List.filter
                                (fun o => bool_decide (snd o = Added))
                                (outcomes (fst (st, w2))))).
      { rewrite <- Hloop.
        apply (scrape_loop_invariant
                 (fun s => dict_keys (metadata (fst s))
                           = dict_keys (load_metadata w)
                             ++ map fst (List.filter
                                  (fun o => bool_decide (snd o = Added))
                                  (outcomes (fst s))))).
        - intros s d. apply scrape_step_store_keys.
        - simpl. rewrite app_nil_r. unfold load_metadata. by rewrite Hm. }
      exact Hinv. }
  split; [exact Hkeys |].
  destruct (scrape_all_delta_invariant _ _ _ _ _ _ Hrun) as (_ & Ha & _).
  simpl in Ha. rewrite Ha. unfold count_outcomes.
  apply (f_equal length) in Hkeys. unfold dict_keys in Hkeys.
  by rewrite length_app, !length_map in Hkeys.
Qed.

End StoreKeys.

(** * The further properties on concrete runs *)

Lemma clean_html_to_markdown_no_blank_runs_witness :
  @clean_html_to_markdown plain_libs "foo" "u"
  = article_url_header "u" +:+ "foo".
Proof.
  apply (@clean_html_to_markdown_no_blank_runs plain_libs "foo" "u");
    [discriminate | reflexivity].
Defined.

Lemma scrape_all_empty_catalog_witness :
  @scrape_all example_libs 1 30 net_register_fails empty_world
  = Some ({| r_stats := zero_stats; r_new_articles := []; r_outcomes := [] |},
          send (GetArticlesPage 1 100) empty_world).
Proof.
  apply (@scrape_all_empty_catalog example_libs); [reflexivity | lia].
Defined.

(** Two articles in the catalog and a limit of one. *)
Lemma scrape_all_counts_witness :
  match @scrape_all example_libs 5 1 (net_catalog [article_A; article_B])
          empty_world with
  | Some (r, _) => sum_stats (r_stats r) = 1
  | None => False
  end.
Proof.
  destruct (@scrape_all example_libs 5 1 (net_catalog [article_A; article_B])
              empty_world) as [[r w']|] eqn:E.
  - destruct (@scrape_all_counts example_libs _ _ _ _ _ _ E)
      as (all & w1 & Hl & _ & Hsum & _).
    vm_compute in Hl. injection Hl as <- _. exact Hsum.
  - vm_compute in E. discriminate.
Defined.

Lemma scrape_all_limit_zero_witness :
  exists w1,
    @scrape_all example_libs 5 0 (net_catalog [article_A]) empty_world
    = Some ({| r_stats := zero_stats; r_new_articles := [];
               r_outcomes := [] |},
            save_metadata [] w1).
Proof.
  eexists.
  refine (proj1 (@scrape_all_limit_zero example_libs 5
                   (net_catalog [article_A]) empty_world [article_A] _ _ _)).
  - reflexivity.
  - discriminate.
Defined.

Lemma scrape_all_added_article_witness :
  exists st' w',
    @scrape_step example_libs (net_catalog [article_A])
      (init_run [], empty_world) article_A = (st', w')
    /\ outcomes st' = [("1", Added)]
    /\ new_articles st' = [filename_of "1"].
Proof.
  edestruct (@scrape_all_added_article example_libs
               (net_catalog [article_A]) [] article_A []
               (init_run [], empty_world) (init_run []) empty_world)
    as (st' & w' & Hs & Ho & _ & _ & _ & Hn & _).
  - reflexivity.
  - reflexivity.
  - reflexivity.
  - exists st', w'. repeat split; assumption.
Defined.

Lemma scrape_all_unchanged_article_witness :
  exists st',
    @scrape_step example_libs (net_catalog [article_A])
      (init_run (store_A foo_markdown), empty_world) article_A
    = (st', send (GetArticle "1") empty_world)
    /\ outcomes st' = [("1", Unchanged)]
    /\ new_articles st' = [].
Proof.
  edestruct (@scrape_all_unchanged_article example_libs
               (net_catalog [article_A]) [] article_A []
               (init_run (store_A foo_markdown), empty_world)
               (init_run (store_A foo_markdown)) empty_world)
    as (st' & Hs & Ho & _ & _ & Hn & _).
  - reflexivity.
  - reflexivity.
  - reflexivity.
  - reflexivity.
  - exists st'. repeat split; assumption.
Defined.

Lemma scrape_all_nothing_changed_witness :
  match @scrape_all example_libs 5 30 (net_catalog [article_A])
          (world_with_store (store_A foo_markdown)) with
  | Some (r, _) => r_new_articles r = []
  | None => False
  end.
Proof.
  destruct (@scrape_all example_libs 5 30 (net_catalog [article_A])
              (world_with_store (store_A foo_markdown)))
    as [[r w']|] eqn:E.
  - refine (proj1 (@scrape_all_nothing_changed example_libs 5 30
                     (net_catalog [article_A])
                     (world_with_store (store_A foo_markdown))
                     [article_A] _ r w' _ _ E)).
    + reflexivity.
    + intros d [<- | []] t. eexists (content_of "foo"), _.
      split; [reflexivity |]. split; [reflexivity |].
      repeat split; vm_compute; (reflexivity || discriminate).
  - vm_compute in E. discriminate.
Defined.

Lemma scrape_all_first_run_witness :
  match @scrape_all example_libs 5 30 (net_catalog [article_A; article_B])
          empty_world with
  | Some (r, _) => updated (r_stats r) = 0 /\ skipped (r_stats r) = 0
  | None => False
  end.
Proof.
  destruct (@scrape_all example_libs 5 30 (net_catalog [article_A; article_B])
              empty_world) as [[r w']|] eqn:E.
  - destruct (@scrape_all_first_run example_libs 5 30
                (net_catalog [article_A; article_B]) empty_world r w')
      as (_ & Hu & Hs & _); [reflexivity | | exact E | by split].
    vm_compute in E. injection E as <- _.
    apply (bool_decide_unpack _). vm_compute. exact I.
  - vm_compute in E. discriminate.
Defined.

Lemma scrape_all_new_articles_cached_witness :
  match @scrape_all example_libs 5 30 (net_catalog [article_A]) empty_world
  with
  | Some (_, w') =>
      exists md, files w' !! os_path_join scraper_articles_dir
                                (filename_of "1") = Some md
                 /\ md <> EmptyString
  | None => False
  end.
Proof.
  destruct (@scrape_all example_libs 5 30 (net_catalog [article_A])
              empty_world) as [[r w']|] eqn:E.
  - destruct (@scrape_all_new_articles_cached example_libs _ _ _ _ _ _
                (filename_of "1") E)
      as (id & md & record & _ & Hf & Hne & _).
    + vm_compute in E. injection E as <- _. left. reflexivity.
    + by exists md.
  - vm_compute in E. discriminate.
Defined.

Lemma main_uploads_new_articles_witness :
  match @main example_libs NoFault 5 (net_catalog [article_A]) env_key
          empty_world
  with
  | Some (code, _) => code = 0%Z
  | None => False
  end.
Proof.
  destruct (@main example_libs NoFault 5 (net_catalog [article_A]) env_key
              empty_world) as [[code w']|] eqn:E.
  - destruct (@scrape_all_run example_libs NoFault 5 50
                (net_catalog [article_A]) empty_world)
      as [[[r w1]|w1]|] eqn:Er.
    + destruct (@main_uploads_new_articles example_libs NoFault 5
                  (net_catalog [article_A]) env_key empty_world
                  example_manager r w1 code w' eq_refl Er E)
        as (_ & _ & _ & Hobj & _).
      apply Hobj. intros t name content. discriminate.
    + vm_compute in Er. discriminate.
    + vm_compute in Er. discriminate.
  - vm_compute in E. discriminate.
Defined.

Lemma os_path_basename_join_witness :
  os_path_basename (os_path_join "articles" "1.md") = "1.md".
Proof. apply os_path_basename_join. reflexivity. Defined.

Lemma upload_delta_files_register_failure_witness :
  exists u' f' w',
    upload_delta_files net_register_fails example_manager
      ["1.md"; "2.md"] "articles" world_two_files
    = Returns ({| uploaded := u'; upload_failed := f'; total := 2 |}, w')
    /\ 1 <= f'.
Proof.
  edestruct (upload_delta_files_register_failure net_register_fails
               example_manager "articles" [] "1.md" ["2.md"] world_two_files
               0 0 world_two_files)
    as (w2 & _ & _ & _ & _ & Hret).
  - reflexivity.
  - vm_compute. reflexivity.
  - destruct Hret as (u' & f' & w' & _ & Hres & Hf).
    + intros t name content. discriminate.
    + exists u', f', w'. split; [exact Hres | exact Hf].
Defined.

Lemma upload_delta_files_all_succeed_witness :
  exists w',
    upload_delta_files (net_catalog []) example_manager
      ["1.md"; "2.md"] "articles" world_two_files
    = Returns ({| uploaded := 2; upload_failed := 0; total := 2 |}, w').
Proof.
  edestruct (upload_delta_files_all_succeed (net_catalog []) example_manager
               ["1.md"; "2.md"] "articles" world_two_files)
    as (w' & Hres & _).
  - intros t name content. eexists. reflexivity.
  - reflexivity.
  - intros f [<- | [<- | []]]; vm_compute; discriminate.
  - exists w'. exact Hres.
Defined.

(** A directory with a Markdown file and another file: one file is
    uploaded, and the call ends with the GET of the statistics. *)
Lemma upload_all_articles_as_delta_witness :
  exists w',
    upload_all_articles (net_catalog []) example_manager
      (Some ["1.md"; "notes.txt"]) "articles" world_two_files
    = Returns (Some {| uploaded := 1; upload_failed := 0; total := 1 |}, w')
    /\ last (requests w')
       = Some (GetVectorStore (vector_store_id example_manager)).
Proof.
  destruct (upload_all_articles_as_delta (net_catalog [])
              example_manager ["1.md"; "notes.txt"] "articles"
              world_two_files) as (Heq & _).
  - vm_compute. discriminate.
  - eexists. split; [rewrite Heq |]; vm_compute; reflexivity.
Defined.

Lemma fetch_articles_list_endless_witness :
  @scrape_all example_libs 7 30 net_endless empty_world = None.
Proof.
  refine (proj1 (proj2 (@fetch_articles_list_endless example_libs net_endless
                          7 30 NoFault env_no_key empty_world _))).
  intros t p. reflexivity.
Defined.

Lemma scrape_all_store_keys_witness :
  match @scrape_all example_libs 5 30 (net_catalog [article_B])
          (world_with_store (store_A "old")) with
  | Some (_, w') => dict_keys (load_metadata w') = ["1"; "2"]
  | None => False
  end.
Proof.
  destruct (@scrape_all example_libs 5 30 (net_catalog [article_B])
              (world_with_store (store_A "old"))) as [[r w']|] eqn:E.
  - pose proof (proj1 (@scrape_all_store_keys example_libs _ _ _ _ _ _ E))
      as Hk.
    vm_compute in E. injection E as <- <-. exact Hk.
  - vm_compute in E. discriminate.
Defined.
